(** * YT-transcript-Summarizer: a shallow embedding of [app.py]

    The Streamlit script [app.py] is embedded function by function.
    Python strings are lists of Unicode code points; the external
    services (transcript API, generative backend, translator, PDF
    canvas, bcrypt, clock) are oracles collected in a record [env]; the
    widget values of one script run are a record [inputs]; the session
    state, the two MongoDB collections and the exported file form the
    [world] that a small state/log/exception monad threads through the
    code. *)

From Stdlib Require Import String Ascii DecimalString.
From Stdlib Require Import List NArith ZArith Bool Lia.
Import ListNotations.

Set Implicit Arguments.

(** ** Python strings *)

Module PyStr.

Definition char := N.
Definition str := list char.

(** A source literal, character by character. *)
Definition lit (s : string) : str := map N_of_ascii (list_ascii_of_string s).

Definition char_eqb : char -> char -> bool := N.eqb.

Fixpoint eqb (a b : str) : bool :=
  match a, b with
  | [], [] => true
  | x :: a', y :: b' => char_eqb x y && eqb a' b'
  | _, _ => false
  end.

(** Truth value of a string: [if s:]. *)
Definition truthy (s : str) : bool :=
  match s with [] => false | _ :: _ => true end.

(** [str.isspace] on one code point. *)
Definition isspace (c : char) : bool :=
  ((9 <=? c) && (c <=? 13) || (28 <=? c) && (c <=? 32)
   || (c =? 133) || (c =? 160) || (c =? 5760)
   || (8192 <=? c) && (c <=? 8202)
   || (c =? 8232) || (c =? 8233) || (c =? 8239) || (c =? 8287)
   || (c =? 12288))%N.

(** [sep.join(l)]. *)
Fixpoint join (sep : str) (l : list str) : str :=
  match l with
  | [] => []
  | [x] => x
  | x :: l' => x ++ sep ++ join sep l'
  end.

(** [s.split()] without argument: maximal runs of non-space characters.
    [words_from s] is the (possibly empty) word that starts [s] and the
    words after it. *)
Definition push_word (w : str) (ws : list str) : list str :=
  match w with [] => ws | _ :: _ => w :: ws end.

Fixpoint words_from (s : str) : str * list str :=
  match s with
  | [] => ([], [])
  | c :: s' =>
      let (w, ws) := words_from s' in
      if isspace c then ([], push_word w ws) else (c :: w, ws)
  end.

Definition split (s : str) : list str :=
  let (w, ws) := words_from s in push_word w ws.

(** [p] is a prefix of [s]: [s.startswith(p)]. *)
Fixpoint startswith (s p : str) : bool :=
  match p, s with
  | [], _ => true
  | x :: p', y :: s' => char_eqb x y && startswith s' p'
  | _ :: _, [] => false
  end.

(** [sub in s]. *)
Fixpoint contains (sub s : str) : bool :=
  startswith s sub ||
  match s with
  | [] => false
  | _ :: s' => contains sub s'
  end.

(** [s.split(sep)] for a non-empty separator: the pieces between
    successive non-overlapping occurrences of [sep], scanning from the
    left.  [skip] counts the characters of an occurrence still to be
    passed over.  The result is the piece that starts [s] and the
    pieces after it; Python's list is never empty. *)
Fixpoint pieces_from (sep : str) (skip : nat) (s : str) : str * list str :=
  match s with
  | [] => ([], [])
  | c :: s' =>
      match skip with
      | S k => pieces_from sep k s'
      | O =>
          if startswith s sep
          then let (w, ws) := pieces_from sep (pred (length sep)) s' in
               ([], w :: ws)
          else let (w, ws) := pieces_from sep 0 s' in
               (c :: w, ws)
      end
  end.

Definition split_on (sep s : str) : list str :=
  let (w, ws) := pieces_from sep 0 s in w :: ws.

(** [l[:n]] with Python's treatment of a negative bound. *)
Definition slice_to (A : Type) (l : list A) (n : Z) : list A :=
  if (n <? 0)%Z
  then firstn (Z.to_nat (Z.of_nat (length l) + n)) l
  else firstn (Z.to_nat n) l.

(** [str(n)] for an int. *)
Definition of_int (n : Z) : str := lit (NilZero.string_of_int (Z.to_int n)).

Definition newline : str := [10%N].

End PyStr.

Import PyStr.

(** [s.encode('utf-8')]; lone surrogates, which a text widget does not
    deliver, are not singled out. *)
Definition bytes := list N.

Definition encode_utf8_char (c : char) : bytes :=
  (if c <? 128 then [c]
   else if c <? 2048 then [192 + c / 64; 128 + c mod 64]
   else if c <? 65536 then [224 + c / 4096; 128 + (c / 64) mod 64; 128 + c mod 64]
   else [240 + c / 262144; 128 + (c / 4096) mod 64; 128 + (c / 64) mod 64;
         128 + c mod 64])%N.

Definition encode_utf8 (s : str) : bytes := flat_map encode_utf8_char s.

(** ** Documents, session state and the world *)

(** One entry of a fetched transcript; only ['text'] is read. *)
Record segment := { text : str }.

(** A document of [db.users]. *)
Record user_doc := { u_email : str; u_password : bytes }.

(** A document of [db.generated_content], as [save_to_mongodb] builds it. *)
Record content_doc := {
  c_email : str;
  c_video_id : str;
  c_content_type : str;
  c_content : str;
  c_language : option str;
  c_timestamp : str
}.

(** [st.session_state]: every key may be absent ([None] at the outer
    level); a present key holds the Python value. *)
Record SessionState := {
  logged_in : option bool;
  user_email : option (option str);
  is_admin_logged_in : option bool;
  generated_content : option (option str);
  translated_content : option (option str);
  pdf_generated : option bool
}.

Definition empty_session : SessionState :=
  {| logged_in := None; user_email := None; is_admin_logged_in := None;
     generated_content := None; translated_content := None;
     pdf_generated := None |}.

Definition set_logged_in (v : bool) (s : SessionState) : SessionState :=
  {| logged_in := Some v; user_email := user_email s;
     is_admin_logged_in := is_admin_logged_in s;
     generated_content := generated_content s;
     translated_content := translated_content s;
     pdf_generated := pdf_generated s |}.

Definition set_user_email (v : option str) (s : SessionState) : SessionState :=
  {| logged_in := logged_in s; user_email := Some v;
     is_admin_logged_in := is_admin_logged_in s;
     generated_content := generated_content s;
     translated_content := translated_content s;
     pdf_generated := pdf_generated s |}.

Definition set_is_admin_logged_in (v : bool) (s : SessionState) : SessionState :=
  {| logged_in := logged_in s; user_email := user_email s;
     is_admin_logged_in := Some v;
     generated_content := generated_content s;
     translated_content := translated_content s;
     pdf_generated := pdf_generated s |}.

Definition set_generated_content (v : option str) (s : SessionState) : SessionState :=
  {| logged_in := logged_in s; user_email := user_email s;
     is_admin_logged_in := is_admin_logged_in s;
     generated_content := Some v;
     translated_content := translated_content s;
     pdf_generated := pdf_generated s |}.

Definition set_translated_content (v : option str) (s : SessionState) : SessionState :=
  {| logged_in := logged_in s; user_email := user_email s;
     is_admin_logged_in := is_admin_logged_in s;
     generated_content := generated_content s;
     translated_content := Some v;
     pdf_generated := pdf_generated s |}.

Definition set_pdf_generated (v : bool) (s : SessionState) : SessionState :=
  {| logged_in := logged_in s; user_email := user_email s;
     is_admin_logged_in := is_admin_logged_in s;
     generated_content := generated_content s;
     translated_content := translated_content s;
     pdf_generated := Some v |}.

(** What the canvas has drawn when it is saved. *)
Inductive pdf_op :=
| SetFont (name : str) (size : Z)
| DrawString (x y : Z) (s : str).

Definition pdf_doc := list pdf_op.

Record world := {
  users_collection : list user_doc;
  content_collection : list content_doc;
  session_state : SessionState;
  files : list (str * pdf_doc)
}.

Definition with_session (f : SessionState -> SessionState) (w : world) : world :=
  {| users_collection := users_collection w;
     content_collection := content_collection w;
     session_state := f (session_state w);
     files := files w |}.

Definition with_users (f : list user_doc -> list user_doc) (w : world) : world :=
  {| users_collection := f (users_collection w);
     content_collection := content_collection w;
     session_state := session_state w;
     files := files w |}.

Definition with_content (f : list content_doc -> list content_doc) (w : world) : world :=
  {| users_collection := users_collection w;
     content_collection := f (content_collection w);
     session_state := session_state w;
     files := files w |}.

Definition with_files (f : list (str * pdf_doc) -> list (str * pdf_doc)) (w : world) : world :=
  {| users_collection := users_collection w;
     content_collection := content_collection w;
     session_state := session_state w;
     files := f (files w) |}.

(** ** What a run shows and calls *)

Inductive event :=
| StTitle (s : str)
| StSubheader (s : str)
| StSidebarSubheader (s : str)
| StError (s : str)
| StSuccess (s : str)
| StInfo (s : str)
| StWrite (s : str)
| StImage (url : str)
| StMarkdown (html : str)
| StDownloadButton (label : str) (data : pdf_doc) (file_name mime : str)
| PyPrint (s : str)
| CallTranscriptApi (video_id language : str)
| CallGenerativeModel (prompt : str)
| CallTranslator (target content : str)
| CallCanvasSave (path : str) (page : pdf_doc)
| InsertUser (d : user_doc)
| InsertContent (d : content_doc).

(** ** The outside: oracles and widget values *)

Inductive outcome (A : Type) :=
| Returns (a : A)
| Raises (msg : str).
Arguments Raises {A} msg.

(** The three calls of [fetch_transcript]'s [try] block taken together. *)
Inductive transcript_outcome :=
| Entries (l : list segment)
| NoTranscriptFound
| VideoUnavailable
| OtherException (msg : str).

Record env := {
  youtube_transcript_api : str -> str -> transcript_outcome;
  generative_model : str -> outcome str;
  google_translator : str -> str -> outcome str;
  canvas_save : str -> pdf_doc -> outcome unit;
  gensalt : bytes;
  hashpw : bytes -> bytes -> bytes;
  checkpw : bytes -> bytes -> bool;
  utcnow : str;
  ADMIN_EMAIL : option str;
  ADMIN_PASSWORD : option str
}.

Inductive sidebar_option := OptLogin | OptSignUp | OptAdminLogin.
Inductive content_kind := Summary | Notes | Flashcards.
Inductive language := Hindi | Spanish | French | German | Italian.
Inductive button :=
| BtnLogin | BtnSignUp | BtnLoginAsAdmin | BtnLogoutAdmin
| BtnGenerateContent | BtnTranslateContent.

Definition button_eqb (a b : button) : bool :=
  match a, b with
  | BtnLogin, BtnLogin | BtnSignUp, BtnSignUp
  | BtnLoginAsAdmin, BtnLoginAsAdmin | BtnLogoutAdmin, BtnLogoutAdmin
  | BtnGenerateContent, BtnGenerateContent
  | BtnTranslateContent, BtnTranslateContent => true
  | _, _ => false
  end.

Definition kind_label (k : content_kind) : str :=
  match k with
  | Summary => lit "Summary"
  | Notes => lit "Notes"
  | Flashcards => lit "Flashcards"
  end.

Definition language_label (l : language) : str :=
  match l with
  | Hindi => lit "Hindi"
  | Spanish => lit "Spanish"
  | French => lit "French"
  | German => lit "German"
  | Italian => lit "Italian"
  end.

(** The widget values of one script run.  A run is triggered by at most
    one button, so [clicked] names the button that returns [True]. *)
Record inputs := {
  option_radio : sidebar_option;
  email_input : str;
  password_input : str;
  admin_email_input : str;
  admin_password_input : str;
  youtube_link_input : str;
  content_type_radio : content_kind;
  word_count_slider : Z;
  translation_language_select : language;
  clicked : option button
}.

(** ** The monad of a script run

    A computation reads and updates the [world], appends to the log of
    events, and either returns or raises. *)

Inductive exn :=
| TypeError
| IndexError
| AttributeError
| FileNotFoundError
| RerunException.

Inductive res (A : Type) :=
| Ret (a : A)
| Raise (e : exn).
Arguments Raise {A} e.

Definition M (A : Type) := world -> res A * world * list event.

Definition ret (A : Type) (a : A) : M A := fun w => (Ret a, w, []).

Definition raise (A : Type) (e : exn) : M A := fun w => (Raise e, w, []).
Arguments raise {A} e.

Definition bind (A B : Type) (m : M A) (k : A -> M B) : M B :=
  fun w =>
    match m w with
    | (Ret a, w1, l1) =>
        match k a w1 with
        | (r, w2, l2) => (r, w2, l1 ++ l2)
        end
    | (Raise e, w1, l1) => (Raise e, w1, l1)
    end.

Notation "x <- m ;; k" := (bind m (fun x => k))
  (at level 61, m at next level, right associativity).
Notation "m ;; k" := (bind m (fun _ => k))
  (at level 61, right associativity).

Definition emit (ev : event) : M unit := fun w => (Ret tt, w, [ev]).

Definition get_world : M world := fun w => (Ret w, w, []).

Definition update (f : world -> world) : M unit := fun w => (Ret tt, f w, []).

(** Result, final world and log of a run. *)
Definition result_of (A : Type) (x : res A * world * list event) : res A := fst (fst x).
Definition world_of (A : Type) (x : res A * world * list event) : world := snd (fst x).
Definition log_of (A : Type) (x : res A * world * list event) : list event := snd x.

(** Reading an attribute of [st.session_state]. *)
Definition get_attr (A : Type) (field : SessionState -> option A) : M A :=
  w <- get_world ;;
  match field (session_state w) with
  | Some v => ret v
  | None => raise AttributeError
  end.

Definition set_attr (f : SessionState -> SessionState) : M unit :=
  update (with_session f).

(** [if "key" not in st.session_state: st.session_state.key = v]. *)
Definition init_attr (A : Type) (field : SessionState -> option A)
    (f : SessionState -> SessionState) : M unit :=
  w <- get_world ;;
  match field (session_state w) with
  | Some _ => ret tt
  | None => set_attr f
  end.

(** [l[n]]. *)
Definition index (A : Type) (l : list A) (n : nat) : M A :=
  match nth_error l n with
  | Some x => ret x
  | None => raise IndexError
  end.

(** Truth value of a [str]-or-[None]. *)
Definition truthy_opt (o : option str) : bool :=
  match o with
  | Some s => truthy s
  | None => false
  end.

(** [users_collection.find_one({"email": email})]. *)
Definition find_one (email : str) (users : list user_doc) : option user_doc :=
  find (fun u => eqb (u_email u) email) users.

(** [users_collection.insert_one(d)]. *)
Definition insert_user (d : user_doc) : M unit :=
  emit (InsertUser d) ;;
  update (with_users (fun us => us ++ [d])).

(** [content_collection.insert_one(d)]. *)
Definition insert_content (d : content_doc) : M unit :=
  emit (InsertContent d) ;;
  update (with_content (fun cs => cs ++ [d])).

(** [open(path, "rb")]. *)
Definition open_rb (path : option str) : M pdf_doc :=
  match path with
  | None => raise TypeError
  | Some p =>
      w <- get_world ;;
      match find (fun f => eqb (fst f) p) (files w) with
      | Some f => ret (snd f)
      | None => raise FileNotFoundError
      end
  end.

(** ** The prompts of [generate_content] *)

Definition indent12 : str := lit "            ".

(** An f-string field holding [desired_word_count]. *)
Definition format_word_count (n : option Z) : str :=
  match n with
  | Some z => of_int z
  | None => lit "None"
  end.

Definition summary_prompt (desired_word_count : option Z) : str :=
  newline ++ indent12
  ++ lit "You are a YouTube video summarizer. Take the transcript provided and summarize it to highlight the important points in approximately "
  ++ format_word_count desired_word_count ++ lit " words." ++ newline ++ indent12
  ++ lit "Ensure the summary is concise, focused, and within the word limit of "
  ++ format_word_count desired_word_count
  ++ lit " words. Provide the summary in English." ++ newline ++ indent12.

Definition notes_prompt : str :=
  newline ++ indent12
  ++ lit "You are a YouTube video note-taker. Take the transcript provided and generate important notes that summarize the key points in a bulleted format."
  ++ newline ++ indent12
  ++ lit "Ensure the notes are concise and focused on the most important aspects. Provide the notes in English."
  ++ newline ++ indent12.

Definition flashcards_prompt : str :=
  newline ++ indent12
  ++ lit "You are a YouTube video flashcard generator. Take the transcript provided and generate a list of key concepts and questions for studying in flashcard format."
  ++ newline ++ indent12
  ++ lit "Ensure the flashcards are clear, relevant, and easy to understand. Provide the flashcards in English."
  ++ newline ++ indent12.

(** The [if]/[elif] chain that picks the prompt; [None] is the [else]. *)
Definition select_prompt (content_type : str) (desired_word_count : option Z)
    : option str :=
  if eqb content_type (lit "Summary") then Some (summary_prompt desired_word_count)
  else if eqb content_type (lit "Notes") then Some notes_prompt
  else if eqb content_type (lit "Flashcards") then Some flashcards_prompt
  else None.

(** Truth value of [desired_word_count]: [None] and [0] are false. *)
Definition word_count_truthy (n : option Z) : bool :=
  match n with
  | Some z => negb (z =? 0)%Z
  | None => false
  end.

Definition ellipsis : str := lit "...".

(** Lines 81-84: the clamp applied to a Summary. *)
Definition clamp_summary (content_type : str) (desired_word_count : option Z)
    (content : str) : str :=
  match desired_word_count with
  | Some n =>
      if eqb content_type (lit "Summary") && word_count_truthy desired_word_count
      then
        let words := split content in
        if (Z.of_nat (length words) >? n)%Z
        then join (lit " ") (slice_to words n) ++ ellipsis
        else content
      else content
  | None => content
  end.

(** ** The functions of [app.py] *)

Section App.

Variable e : env.
Variable i : inputs.

(** [st.button(...)]. *)
Definition st_button (b : button) : bool :=
  match clicked i with
  | Some b' => button_eqb b b'
  | None => false
  end.

(** Lines 43-54. *)
Definition fetch_transcript (video_id language : str) : M (option str) :=
  emit (CallTranscriptApi video_id language) ;;
  match youtube_transcript_api e video_id language with
  | Entries entries => ret (Some (join (lit " ") (map text entries)))
  | NoTranscriptFound =>
      emit (StError (lit "Transcript not available for this video.")) ;;
      ret None
  | VideoUnavailable =>
      emit (StError (lit "The video is unavailable. Please try another link.")) ;;
      ret None
  | OtherException msg =>
      emit (StError (lit "An unexpected error occurred: " ++ msg)) ;;
      ret None
  end.

(** Lines 57-89.  Building the [GenerativeModel] object calls nothing. *)
Definition generate_content (content_type transcript_text : str)
    (desired_word_count : option Z) : M (option str) :=
  match select_prompt content_type desired_word_count with
  | None => ret (Some (lit "Invalid content type selected."))
  | Some prompt =>
      emit (CallGenerativeModel (prompt ++ transcript_text)) ;;
      match generative_model e (prompt ++ transcript_text) with
      | Returns content =>
          ret (Some (clamp_summary content_type desired_word_count content))
      | Raises msg =>
          emit (StError (lit "Failed to generate content: " ++ msg)) ;;
          ret None
      end
  end.

(** Lines 92-101. *)
Definition translate_content (content target_language : str) : M (option str) :=
  emit (CallTranslator target_language content) ;;
  match google_translator e target_language content with
  | Returns translated => ret (Some translated)
  | Raises msg =>
      emit (StError (lit "Failed to translate content: " ++ msg)) ;;
      ret None
  end.

(** Lines 104-117.  The insertion itself is taken to succeed. *)
Definition save_to_mongodb (email video_id content_type content : str)
    (language : option str) : M unit :=
  let content_data :=
    {| c_email := email; c_video_id := video_id;
       c_content_type := content_type; c_content := content;
       c_language := language; c_timestamp := utcnow e |} in
  insert_content content_data ;;
  emit (StSuccess (lit "Content saved permanently to MongoDB.")).

(** Lines 120-131. *)
Definition login_page : M unit :=
  emit (StTitle (lit "Login")) ;;
  let email := email_input i in
  let password := password_input i in
  if st_button BtnLogin then
    w <- get_world ;;
    let user := find_one email (users_collection w) in
    if match user with
       | Some u => checkpw e (encode_utf8 password) (u_password u)
       | None => false
       end
    then
      set_attr (set_logged_in true) ;;
      set_attr (set_user_email (Some email)) ;;
      emit (StSuccess (lit "Login successful!"))
    else
      emit (StError (lit "Invalid email or password."))
  else ret tt.

(** Lines 134-150.  [st.rerun()] leaves the run by raising. *)
Definition signup_page : M unit :=
  emit (StTitle (lit "Sign Up")) ;;
  let email := email_input i in
  let password := password_input i in
  if st_button BtnSignUp then
    w <- get_world ;;
    match find_one email (users_collection w) with
    | Some _ => emit (StError (lit "User already exists."))
    | None =>
        let hashed_password := hashpw e (encode_utf8 password) (gensalt e) in
        insert_user {| u_email := email; u_password := hashed_password |} ;;
        set_attr (set_logged_in true) ;;
        set_attr (set_user_email (Some email)) ;;
        set_attr (set_logged_in false) ;;
        set_attr (set_user_email None) ;;
        emit (StSuccess (lit "Registration successful! You can now log in.")) ;;
        raise RerunException
    end
  else ret tt.

(** The loop of lines 166-168. *)
Fixpoint draw_lines (lines : list str) (y : Z) : pdf_doc :=
  match lines with
  | [] => []
  | line :: rest => DrawString 50 y line :: draw_lines rest (y - 20)
  end.

Definition pdf_page (content content_type : str) : pdf_doc :=
  [SetFont (lit "Helvetica") 16;
   DrawString 100 750 (content_type ++ lit " Content");
   SetFont (lit "Helvetica") 12]
  ++ draw_lines (split_on newline content) 700.

(** Lines 153-177.  [canvas_save] decides whether the [try] block goes
    through; on success the page is the file at [pdf_output]. *)
Definition generate_pdf (content content_type : str) : M (option str) :=
  let pdf_output := lit "/tmp/generated_content_reportlab.pdf" in
  let page := pdf_page content content_type in
  emit (CallCanvasSave pdf_output page) ;;
  match canvas_save e pdf_output page with
  | Returns _ =>
      update (with_files (fun fs => (pdf_output, page) :: fs)) ;;
      ret (Some pdf_output)
  | Raises msg =>
      emit (PyPrint (lit "Error generating PDF: " ++ msg)) ;;
      ret None
  end.

(** The loops of [admin_panel]. *)
Fixpoint write_users (users : list user_doc) : M unit :=
  match users with
  | [] => ret tt
  | user :: rest =>
      emit (StWrite (lit "- " ++ u_email user)) ;;
      write_users rest
  end.

Fixpoint write_contents (contents : list content_doc) : M unit :=
  match contents with
  | [] => ret tt
  | content :: rest =>
      emit (StWrite (lit "User: " ++ c_email content ++ lit ", Type: "
                     ++ c_content_type content ++ lit ", Timestamp: "
                     ++ c_timestamp content)) ;;
      write_contents rest
  end.

(** Lines 180-203. *)
Definition admin_panel : M unit :=
  emit (StTitle (lit "Admin Panel")) ;;
  emit (StSidebarSubheader (lit "Admin Actions")) ;;
  (if st_button BtnLogoutAdmin then
     set_attr (set_is_admin_logged_in false) ;;
     emit (StSuccess (lit "Admin has been logged out."))
   else ret tt) ;;
  emit (StSubheader (lit "User Management")) ;;
  w <- get_world ;;
  let users := users_collection w in
  (match users with
   | _ :: _ =>
       emit (StWrite (lit "**Registered Users:**")) ;;
       write_users users
   | [] => emit (StInfo (lit "No users found."))
   end) ;;
  emit (StSubheader (lit "Generated Content Management")) ;;
  let contents := content_collection w in
  match contents with
  | _ :: _ => write_contents contents
  | [] => emit (StInfo (lit "No content generated yet."))
  end.

(** The block that [st.markdown] shows for a content. *)
Definition content_block (content_type tag content : str) : str :=
  lit "<div style='padding: 10px; border: 1px solid #ccc; border-radius: 5px; background-color: #000000;'>"
  ++ lit "<h3>" ++ content_type ++ lit " (" ++ tag ++ lit "):</h3>"
  ++ lit "<p>" ++ content ++ lit "</p></div>".

(** Line 213: the identifier inside a link that holds one of the two
    markers. *)
Definition extract_video_id (youtube_link : str) : M str :=
  if contains (lit "v=") youtube_link then
    after <- index (split_on (lit "v=") youtube_link) 1 ;;
    index (split_on (lit "&") after) 0
  else index (split_on (lit "youtu.be/") youtube_link) 1.

(** Lines 209-216. *)
Definition read_video_id : M (option str) :=
  let youtube_link := youtube_link_input i in
  if truthy youtube_link then
    if contains (lit "v=") youtube_link || contains (lit "youtu.be/") youtube_link
    then
      video_id <- extract_video_id youtube_link ;;
      emit (StImage (lit "http://img.youtube.com/vi/" ++ video_id ++ lit "/0.jpg")) ;;
      ret (Some video_id)
    else
      emit (StError (lit "Please enter a valid YouTube link.")) ;;
      ret None
  else ret None.

(** Lines 230-239. *)
Definition generation_step (video_id : option str) (content_type : str)
    (desired_word_count : Z) : M unit :=
  match video_id with
  | Some vid =>
      if truthy vid then
        transcript_text <- fetch_transcript vid (lit "en") ;;
        match transcript_text with
        | Some t =>
            if truthy t then
              if st_button BtnGenerateContent then
                generated <-
                  (if eqb content_type (lit "Summary")
                   then generate_content content_type t (Some desired_word_count)
                   else generate_content content_type t None) ;;
                set_attr (set_generated_content generated) ;;
                set_attr (set_translated_content None) ;;
                set_attr (set_pdf_generated false)
              else ret tt
            else ret tt
        | None => ret tt
        end
      else ret tt
  | None => ret tt
  end.

(** Lines 241-259. *)
Definition export_and_translate_step (content_type : str) : M unit :=
  generated <- get_attr generated_content ;;
  match generated with
  | Some g =>
      if truthy g then
        emit (StMarkdown (content_block content_type (lit "English") g)) ;;
        pdf_path <- generate_pdf g content_type ;;
        pdf_file <- open_rb pdf_path ;;
        emit (StDownloadButton (lit "Download PDF") pdf_file
                (lit "generated_content_reportlab.pdf") (lit "application/pdf")) ;;
        let translation_language :=
          language_label (translation_language_select i) in
        if st_button BtnTranslateContent then
          translated <- translate_content g translation_language ;;
          set_attr (set_translated_content translated)
        else ret tt
      else ret tt
  | None => ret tt
  end.

(** Lines 261-264. *)
Definition show_translation_step (content_type : str) : M unit :=
  translated <- get_attr translated_content ;;
  match translated with
  | Some t =>
      if truthy t
      then emit (StMarkdown (content_block content_type (lit "Translated") t))
      else ret tt
  | None => ret tt
  end.

(** Lines 206-264. *)
Definition main_app : M unit :=
  emit (StTitle (lit "YouTube Transcript Summarizer")) ;;
  video_id <- read_video_id ;;
  let content_type := kind_label (content_type_radio i) in
  let desired_word_count := word_count_slider i in
  init_attr generated_content (set_generated_content None) ;;
  init_attr translated_content (set_translated_content None) ;;
  init_attr pdf_generated (set_pdf_generated false) ;;
  generation_step video_id content_type desired_word_count ;;
  export_and_translate_step content_type ;;
  show_translation_step content_type.

(** Lines 285-294. *)
Definition admin_login : M unit :=
  emit (StTitle (lit "Admin Login")) ;;
  let admin_email := admin_email_input i in
  let admin_password := admin_password_input i in
  if st_button BtnLoginAsAdmin then
    if match ADMIN_EMAIL e with
       | Some a => eqb admin_email a
       | None => false
       end
       &&
       match ADMIN_PASSWORD e with
       | Some p => eqb admin_password p
       | None => false
       end
    then
      set_attr (set_is_admin_logged_in true) ;;
      emit (StSuccess (lit "Admin login successful!"))
    else emit (StError (lit "Invalid admin credentials."))
  else ret tt.

(** Lines 267-294: one run of the script. *)
Definition app_run : M unit :=
  init_attr logged_in (set_logged_in false) ;;
  init_attr is_admin_logged_in (set_is_admin_logged_in false) ;;
  li <- get_attr logged_in ;;
  if li then main_app
  else
    ad <- get_attr is_admin_logged_in ;;
    if ad then admin_panel
    else
      match option_radio i with
      | OptLogin => login_page
      | OptSignUp => signup_page
      | OptAdminLogin => admin_login
      end.

End App.

(** ** Interaction flows *)

(** The screen that the entry point shows for a session. *)
Inductive screen := Unauthenticated | UserSession | AdminSession.

Definition screen_of (s : SessionState) : screen :=
  match logged_in s with
  | Some true => UserSession
  | _ =>
      match is_admin_logged_in s with
      | Some true => AdminSession
      | _ => Unauthenticated
      end
  end.

(** A flow is a sequence of runs, each with its own widget values and
    its own answers from the outside; the world persists between runs
    whether a run returns or raises. *)
Fixpoint app_flow (steps : list (env * inputs)) (w : world) : world * list event :=
  match steps with
  | [] => (w, [])
  | (e, i) :: rest =>
      let r := app_run e i w in
      let (w', l') := app_flow rest (world_of r) in
      (w', log_of r ++ l')
  end.

Definition is_insert_content (ev : event) : bool :=
  match ev with
  | InsertContent _ => true
  | _ => false
  end.

Definition is_transcript_call (ev : event) : bool :=
  match ev with
  | CallTranscriptApi _ _ => true
  | _ => false
  end.

Definition is_model_call (ev : event) : bool :=
  match ev with
  | CallGenerativeModel _ => true
  | _ => false
  end.

Definition is_st_error (ev : event) : bool :=
  match ev with
  | StError _ => true
  | _ => false
  end.

(** Number of words of a text, as [len(text.split())]. *)
Definition word_count (s : str) : nat := length (split s).

(** ** Sample surroundings, for running the model *)

Definition sample_env (reply : outcome str) (segments : list segment)
    (save : outcome unit) : env :=
  {| youtube_transcript_api := fun _ _ => Entries segments;
     generative_model := fun _ => reply;
     google_translator := fun _ content => Returns content;
     canvas_save := fun _ _ => save;
     gensalt := [7%N];
     hashpw := fun password salt => salt ++ password;
     checkpw := fun password hashed =>
       match hashed with
       | [] => false
       | _ :: h => eqb h password
       end;
     utcnow := lit "2024-01-01 00:00:00";
     ADMIN_EMAIL := Some (lit "admin@example.com");
     ADMIN_PASSWORD := Some (lit "secret") |}.

Definition sample_inputs (link : str) (b : option button) : inputs :=
  {| option_radio := OptSignUp;
     email_input := lit "a@b.com";
     password_input := lit "p1";
     admin_email_input := [];
     admin_password_input := [];
     youtube_link_input := link;
     content_type_radio := Summary;
     word_count_slider := 50;
     translation_language_select := Hindi;
     clicked := b |}.

Definition login_inputs (email password : str) : inputs :=
  {| option_radio := OptLogin;
     email_input := email;
     password_input := password;
     admin_email_input := [];
     admin_password_input := [];
     youtube_link_input := [];
     content_type_radio := Summary;
     word_count_slider := 50;
     translation_language_select := Hindi;
     clicked := Some BtnLogin |}.

Definition empty_world : world :=
  {| users_collection := []; content_collection := [];
     session_state := empty_session; files := [] |}.

(** A word: non-empty and free of white space. *)
Definition spaceless (w : str) : Prop := Forall (fun c => isspace c = false) w.
Definition is_word (w : str) : Prop := w <> [] /\ spaceless w.

(** Appending a suffix to the last string of a list. *)
Fixpoint app_last (suf : str) (l : list str) : list str :=
  match l with
  | [] => []
  | [x] => [x ++ suf]
  | x :: l' => x :: app_last suf l'
  end.

(** A logged-in session holding a generated and a translated content. *)
Definition sample_session (generated translated : option str) (exported : bool)
    : SessionState :=
  {| logged_in := Some true; user_email := Some (Some (lit "a@b.com"));
     is_admin_logged_in := Some false;
     generated_content := Some generated;
     translated_content := Some translated;
     pdf_generated := Some exported |}.

Definition sample_world (s : SessionState) : world :=
  {| users_collection := []; content_collection := [];
     session_state := s; files := [] |}.

(** The world in which the entry point dispatches: the two flags that
    lines 268-272 set when absent are present. *)
Definition init_flags (w : world) : world :=
  world_of ((init_attr logged_in (set_logged_in false) ;;
             init_attr is_admin_logged_in (set_is_admin_logged_in false)) w).

(** A store for the admin session. *)
Definition admin_world (users : list user_doc) (contents : list content_doc)
    : world :=
  {| users_collection := users; content_collection := contents;
     session_state :=
       {| logged_in := Some false; user_email := None;
          is_admin_logged_in := Some true; generated_content := None;
          translated_content := None; pdf_generated := None |};
     files := [] |}.

Definition sample_content (body : str) : content_doc :=
  {| c_email := lit "a@b.com"; c_video_id := lit "abc123";
     c_content_type := lit "Notes"; c_content := body;
     c_language := None; c_timestamp := lit "2024-01-01 00:00:00" |}.

(** ** Statements of the properties *)

(** The Summary clamp, for one call with target [N]: when the backend
    answers, the call returns a text of at most [N] words, which is the
    first [N] words of the answer joined by spaces and followed by the
    ellipsis whenever the answer has more than [N] words. *)
Definition summary_clamped (e : env) (transcript : str) (N : Z) (w : world) : Prop :=
  forall content,
    generative_model e (summary_prompt (Some N) ++ transcript) = Returns content ->
    exists r,
      result_of (generate_content e (lit "Summary") transcript (Some N) w)
      = Ret (Some r)
      /\ (Z.of_nat (word_count r) <= N)%Z
      /\ ((Z.of_nat (word_count content) > N)%Z ->
          r = join (lit " ") (firstn (Z.to_nat N) (split content)) ++ ellipsis).

(** The transcript of a track that the API delivers: [fetch_transcript]
    returns the texts of the segments joined by spaces, in order; the
    flag says whether the returned string is also claimed non-empty. *)
Definition transcript_joined (nonempty : bool) (e : env) (video_id language : str)
    (w : world) : Prop :=
  forall segments,
    youtube_transcript_api e video_id language = Entries segments ->
    exists s,
      result_of (fetch_transcript e video_id language w) = Ret (Some s)
      /\ s = join (lit " ") (map text segments)
      /\ (nonempty = true -> s <> []).

(** A link of neither recognised shape. *)
Definition unrecognised (link : str) : Prop :=
  contains (lit "v=") link = false /\ contains (lit "youtu.be/") link = false.

(** The run of [main_app] reports the link as invalid and does not call
    the transcript API. *)
Definition parse_failure_reported (e : env) (i : inputs) (w : world) : Prop :=
  let r := main_app e i w in
  In (StError (lit "Please enter a valid YouTube link.")) (log_of r)
  /\ Forall (fun ev => is_transcript_call ev = false) (log_of r).

(** The event that ends a successful registration. *)
Definition registration_success : event :=
  StSuccess (lit "Registration successful! You can now log in.").

(** Number of users of the store with a given identifier. *)
Definition count_users (email : str) (users : list user_doc) : nat :=
  length (filter (fun u => eqb (u_email u) email) users).

(** A computation whose every run relates the world it starts from to
    the world it ends in by [I] and logs only events satisfying [P]. *)
Definition keeps (I : world -> world -> Prop) (P : event -> Prop)
    (A : Type) (m : M A) : Prop :=
  forall w, I w (world_of (m w)) /\ Forall P (log_of (m w)).

Definition same_content (w w' : world) : Prop :=
  content_collection w' = content_collection w.

Definition same_session (w w' : world) : Prop :=
  session_state w' = session_state w.

Definition any_world (w w' : world) : Prop := True.

Definition any_event (ev : event) : Prop := True.

(** A run that calls the generative model ends with the translated
    content cleared and the export flag reset. *)
Definition invalidated_if_generated (x : res unit * world * list event) : Prop :=
  existsb is_model_call (log_of x) = true ->
  translated_content (session_state (world_of x)) = Some None
  /\ pdf_generated (session_state (world_of x)) = Some false.

(** The text that a canvas operation draws. *)
Definition op_text (op : pdf_op) : str :=
  match op with
  | DrawString _ _ s => s
  | SetFont _ _ => []
  end.

(** The lines of the body of a page: what is drawn after the title
    block of three operations. *)
Definition body_lines (page : pdf_doc) : list str := map op_text (skipn 3 page).

Definition pdf_output_path : str := lit "/tmp/generated_content_reportlab.pdf".

Definition thumbnail (video_id : str) : event :=
  StImage (lit "http://img.youtube.com/vi/" ++ video_id ++ lit "/0.jpg").

Definition same_users (w w' : world) : Prop :=
  users_collection w' = users_collection w.

(** The identifiers of the registered users. *)
Definition emails (w : world) : list str := map u_email (users_collection w).

Definition login_success : event := StSuccess (lit "Login successful!").

Definition admin_login_success : event := StSuccess (lit "Admin login successful!").

Definition same_login (w w' : world) : Prop :=
  logged_in (session_state w') = logged_in (session_state w).

(** The export flag, once not [True], stays so. *)
Definition export_flag_stays_unset (w w' : world) : Prop :=
  pdf_generated (session_state w) <> Some true ->
  pdf_generated (session_state w') <> Some true.

(** A generated content that the session holds is still held. *)
Definition generated_content_kept (w w' : world) : Prop :=
  forall g, generated_content (session_state w) = Some (Some g) ->
            generated_content (session_state w') = Some (Some g).

(** The transcript API delivers no usable transcript: it fails, or the
    joined text is empty. *)
Definition no_transcript (e : env) : Prop :=
  forall video_id,
    match youtube_transcript_api e video_id (lit "en") with
    | Entries entries => join (lit " ") (map text entries) = []
    | _ => True
    end.

(** The generative backend fails on every prompt. *)
Definition backend_down (e : env) : Prop :=
  forall prompt, exists msg, generative_model e prompt = Raises msg.

(** What the admin panel shows of a user and of a content record. *)
Definition user_line (email : str) : event := StWrite (lit "- " ++ email).

Definition content_projection (c : content_doc) : str * str * str :=
  (c_email c, c_content_type c, c_timestamp c).

Definition content_line (p : str * str * str) : event :=
  match p with
  | (email, content_type, timestamp) =>
      StWrite (lit "User: " ++ email ++ lit ", Type: " ++ content_type
               ++ lit ", Timestamp: " ++ timestamp)
  end.

(** The two listings of the admin panel, from what they project. *)
Definition users_listing (identifiers : list str) : list event :=
  match identifiers with
  | [] => [StInfo (lit "No users found.")]
  | _ :: _ => StWrite (lit "**Registered Users:**") :: map user_line identifiers
  end.

Definition contents_listing (projections : list (str * str * str)) : list event :=
  match projections with
  | [] => [StInfo (lit "No content generated yet.")]
  | _ :: _ => map content_line projections
  end.

(** The word count that [main_app] hands to [generate_content]: the
    slider for a Summary, [None] otherwise (lines 234-237). *)
Definition requested_word_count (i : inputs) : option Z :=
  match content_type_radio i with
  | Summary => Some (word_count_slider i)
  | _ => None
  end.

Definition same_world (w w' : world) : Prop := w' = w.

(** What the session holds after a call of the translator. *)
Definition translation_result (o : outcome str) : option str :=
  match o with
  | Returns t => Some t
  | Raises _ => None
  end.

(** The widget values of the run that [st.rerun()] starts: the script
    runs again with every widget as it is, the sidebar radio included,
    and no button returns [True]. *)
Definition rerun_inputs (i : inputs) : inputs :=
  {| option_radio := option_radio i;
     email_input := email_input i;
     password_input := password_input i;
     admin_email_input := admin_email_input i;
     admin_password_input := admin_password_input i;
     youtube_link_input := youtube_link_input i;
     content_type_radio := content_type_radio i;
     word_count_slider := word_count_slider i;
     translation_language_select := translation_language_select i;
     clicked := None |}.

Definition is_registration_success (ev : event) : bool :=
  match ev with
  | StSuccess s => eqb s (lit "Registration successful! You can now log in.")
  | _ => false
  end.

(** * Properties *)

(** ** Strings *)

Example split_example :
  split (lit "  hello   world ") = [lit "hello"; lit "world"].
Proof. reflexivity. Qed.

Example split_on_example :
  split_on (lit "v=") (lit "https://www.youtube.com/watch?v=abc&t=1")
  = [lit "https://www.youtube.com/watch?"; lit "abc&t=1"].
Proof. reflexivity. Qed.

Example isspace_example :
  map isspace [9; 10; 13; 32; 160; 8195; 12288; 46; 97; 8203]%N
  = [true; true; true; true; true; true; true; false; false; false].
Proof. reflexivity. Qed.

Example split_on_repeated :
  split_on (lit "&") (lit "a&&b&") = [lit "a"; []; lit "b"; []]
  /\ join (lit "&") (split_on (lit "&") (lit "a&&b&")) = lit "a&&b&".
Proof. split; reflexivity. Qed.

Example split_on_empty : split_on (lit "v=") [] = [[]].
Proof. reflexivity. Qed.

Example of_int_example : of_int 250 = lit "250" /\ of_int (-3) = lit "-3".
Proof. split; reflexivity. Qed.

Lemma eqb_eq (a b : str) : eqb a b = true <-> a = b.
Proof.
  revert b; induction a as [|x a IH]; intros [|y b]; simpl;
    try (split; [discriminate | discriminate]); [tauto|].
  unfold char_eqb. rewrite andb_true_iff, N.eqb_eq, IH.
  split; [intros [-> ->]; reflexivity | intros H; inversion H; auto].
Qed.

Lemma eqb_refl (a : str) : eqb a a = true.
Proof. apply eqb_eq; reflexivity. Qed.

Lemma eqb_neq (a b : str) : eqb a b = false <-> a <> b.
Proof.
  rewrite <- eqb_eq. destruct (eqb a b); split; congruence.
Qed.

Lemma words_from_app (w s : str) :
  spaceless w ->
  words_from (w ++ s) = (w ++ fst (words_from s), snd (words_from s)).
Proof.
  induction 1 as [|c w Hc Hw IH]; simpl.
  - destruct (words_from s); reflexivity.
  - rewrite IH, Hc. reflexivity.
Qed.

Lemma words_from_words (s : str) :
  spaceless (fst (words_from s)) /\ Forall is_word (snd (words_from s)).
Proof.
  induction s as [|c s [IHw IHws]]; simpl.
  - split; constructor.
  - destruct (words_from s) as [w ws]; simpl in *.
    destruct (isspace c) eqn:Hc; simpl.
    + split; [constructor|].
      destruct w; simpl; auto.
      constructor; auto. split; [discriminate | assumption].
    + split; auto. constructor; assumption.
Qed.

Lemma split_words (s : str) : Forall is_word (split s).
Proof.
  unfold split. pose proof (words_from_words s) as [Hw Hws].
  destruct (words_from s) as [w ws]; simpl in *.
  destruct w; simpl; auto.
  constructor; auto. split; [discriminate | assumption].
Qed.

Lemma split_join_words (ws : list str) :
  Forall is_word ws -> split (join (lit " ") ws) = ws.
Proof.
  induction 1 as [|x l [Hne Hx] Hl IH].
  - reflexivity.
  - destruct l as [|y l'].
    + unfold split; simpl. rewrite <- (app_nil_r x) at 1.
      rewrite words_from_app by assumption. simpl. rewrite app_nil_r.
      destruct x; [congruence | reflexivity].
    + remember (join (lit " ") (y :: l')) as r eqn:Hr.
      change (join (lit " ") (x :: y :: l')) with (x ++ 32%N :: join (lit " ") (y :: l')).
      rewrite <- Hr. unfold split in *.
      rewrite words_from_app by assumption.
      simpl words_from.
      destruct (words_from r) as [w rest].
      simpl. rewrite IH, app_nil_r.
      destruct x; [congruence | reflexivity].
Qed.

Lemma app_last_length (suf : str) (l : list str) :
  length (app_last suf l) = length l.
Proof.
  induction l as [|x [|y l'] IH]; simpl in *; auto.
Qed.

Lemma app_last_words (suf : str) (l : list str) :
  spaceless suf -> Forall is_word l -> Forall is_word (app_last suf l).
Proof.
  intros Hs. induction 1 as [|x l [Hne Hx] Hl IH]; simpl; auto.
  destruct l as [|y l'].
  - constructor; auto. split.
    + destruct x; [congruence | discriminate].
    + apply Forall_app; split; assumption.
  - constructor; [split; assumption | exact IH].
Qed.

Lemma join_app_last (sep suf : str) (l : list str) :
  l <> [] -> join sep l ++ suf = join sep (app_last suf l).
Proof.
  induction l as [|x [|y l'] IH]; intros Hne.
  - congruence.
  - reflexivity.
  - change (join sep (x :: y :: l')) with (x ++ sep ++ join sep (y :: l')).
    change (app_last suf (x :: y :: l')) with (x :: app_last suf (y :: l')).
    assert (Hj : join sep (x :: app_last suf (y :: l'))
                 = x ++ sep ++ join sep (app_last suf (y :: l'))).
    { simpl. destruct l'; reflexivity. }
    rewrite Hj, <- IH by discriminate.
    rewrite <- !app_assoc. reflexivity.
Qed.

Lemma ellipsis_spaceless : spaceless ellipsis.
Proof. repeat constructor. Qed.

(** The clamped text has as many words as were kept. *)
Lemma word_count_clamped (ws : list str) :
  Forall is_word ws -> ws <> [] ->
  word_count (join (lit " ") ws ++ ellipsis) = length ws.
Proof.
  intros Hw Hne. unfold word_count.
  rewrite join_app_last by assumption.
  rewrite split_join_words by (apply app_last_words; auto using ellipsis_spaceless).
  apply app_last_length.
Qed.

Lemma Forall_firstn (A : Type) (P : A -> Prop) (n : nat) (l : list A) :
  Forall P l -> Forall P (firstn n l).
Proof.
  intros H; revert n; induction H; intros [|n]; simpl; auto.
Qed.

(** ** Content Generator *)

Lemma select_prompt_summary (n : option Z) :
  select_prompt (lit "Summary") n = Some (summary_prompt n).
Proof. reflexivity. Qed.

Lemma clamp_summary_short (n : Z) (content : str) :
  (Z.of_nat (word_count content) <= n)%Z ->
  clamp_summary (lit "Summary") (Some n) content = content.
Proof.
  intros H. unfold clamp_summary, word_count in *.
  destruct (eqb _ _ && _); auto.
  destruct (Z.gtb_spec (Z.of_nat (length (split content))) n); [lia | reflexivity].
Qed.

Lemma clamp_summary_long (n : Z) (content : str) :
  (0 < n)%Z -> (Z.of_nat (word_count content) > n)%Z ->
  clamp_summary (lit "Summary") (Some n) content
  = join (lit " ") (firstn (Z.to_nat n) (split content)) ++ ellipsis.
Proof.
  intros Hn H. unfold clamp_summary, word_count in *.
  change (eqb (lit "Summary") (lit "Summary")) with true.
  unfold word_count_truthy. destruct (Z.eqb_spec n 0); [lia|]. simpl andb.
  destruct (Z.gtb_spec (Z.of_nat (length (split content))) n); [|lia].
  unfold slice_to. destruct (Z.ltb_spec n 0); [lia | reflexivity].
Qed.

Lemma generate_content_returns (e : env) (content_type transcript : str)
    (n : option Z) (w : world) (prompt content : str) :
  select_prompt content_type n = Some prompt ->
  generative_model e (prompt ++ transcript) = Returns content ->
  generate_content e content_type transcript n w
  = (Ret (Some (clamp_summary content_type n content)), w,
     [CallGenerativeModel (prompt ++ transcript)]).
Proof.
  intros Hsel Hreply. unfold generate_content. rewrite Hsel.
  unfold bind, emit. cbv beta iota. rewrite Hreply. reflexivity.
Qed.

(** C1, as amended: for every call of [generate_content] for a Summary
    with a target word count [N >= 1] and an answer from the backend,
    the returned text has at most [N] words, and when the answer has
    more than [N] words the returned text is its first [N] words joined
    by spaces followed by the ellipsis. *)
Theorem generate_summary_clamped (e : env) (transcript : str) (N : Z) (w : world) :
  (0 < N)%Z -> summary_clamped e transcript N w.
Proof.
  intros HN content Hreply.
  rewrite (@generate_content_returns e (lit "Summary") transcript (Some N) w _ content
             (select_prompt_summary _) Hreply).
  eexists; split; [reflexivity|].
  destruct (Z_le_gt_dec (Z.of_nat (word_count content)) N) as [Hle | Hgt].
  - rewrite clamp_summary_short by assumption. split; [assumption | lia].
  - rewrite clamp_summary_long by assumption. split; [|reflexivity].
    pose proof (split_words content) as Hw.
    rewrite word_count_clamped.
    + rewrite length_firstn. unfold word_count in Hgt. lia.
    + apply Forall_firstn; assumption.
    + unfold word_count in Hgt.
      destruct (split content); simpl in *; [lia|].
      destruct (Z.to_nat N) eqn:E; [lia | discriminate].
Qed.

Lemma generate_summary_clamped_witness :
  (0 < 3)%Z /\
  summary_clamped
    (sample_env (Returns (lit "one two three four five")) [] (Returns tt))
    (lit "hello world this is a test") 3 empty_world.
Proof.
  split; [lia | apply (@generate_summary_clamped _ _ 3); lia].
Defined.

(** C1, as stated, fails for the target 0: the clamp is skipped and the
    one-word answer is returned whole. *)
Lemma generate_summary_zero_target :
  ~ summary_clamped (sample_env (Returns (lit "hello")) [] (Returns tt))
      (lit "hello world") 0 empty_world.
Proof.
  intros H. destruct (H (lit "hello") eq_refl) as (r & Hr & Hle & _).
  vm_compute in Hr. inversion Hr; subst r.
  vm_compute in Hle. apply Hle. reflexivity.
Qed.

Example generate_summary_three_words :
  result_of (generate_content
               (sample_env (Returns (lit "one two  three four five")) [] (Returns tt))
               (lit "Summary") (lit "hello world this is a test") (Some 3%Z)
               empty_world)
  = Ret (Some (lit "one two three...")).
Proof. reflexivity. Qed.

(** C10: for every content type other than Summary, Notes and
    Flashcards, [generate_content] returns the invalid-type message at
    once; the run logs no event, so the generative backend is not
    called, and the world is unchanged. *)
Theorem generate_content_invalid_kind (e : env) (content_type transcript : str)
    (n : option Z) (w : world) :
  content_type <> lit "Summary" ->
  content_type <> lit "Notes" ->
  content_type <> lit "Flashcards" ->
  generate_content e content_type transcript n w
  = (Ret (Some (lit "Invalid content type selected.")), w, []).
Proof.
  intros H1 H2 H3. apply eqb_neq in H1, H2, H3.
  unfold generate_content, select_prompt. rewrite H1, H2, H3. reflexivity.
Qed.

Lemma generate_content_invalid_kind_witness :
  lit "Quiz" <> lit "Summary" /\ lit "Quiz" <> lit "Notes"
  /\ lit "Quiz" <> lit "Flashcards"
  /\ generate_content (sample_env (Returns (lit "hello")) [] (Returns tt))
       (lit "Quiz") (lit "hello world") None empty_world
     = (Ret (Some (lit "Invalid content type selected.")), empty_world, []).
Proof.
  assert (H1 : lit "Quiz" <> lit "Summary") by discriminate.
  assert (H2 : lit "Quiz" <> lit "Notes") by discriminate.
  assert (H3 : lit "Quiz" <> lit "Flashcards") by discriminate.
  repeat (split; [assumption|]).
  apply generate_content_invalid_kind; assumption.
Defined.

(** ** Transcript Fetcher *)

Lemma join_nil_iff (sep : str) (l : list str) :
  sep <> [] -> (join sep l = [] <-> l = [] \/ l = [[]]).
Proof.
  intros Hsep. split.
  - destruct l as [|x [|y l']]; simpl; auto.
    + intros ->; auto.
    + intros H. apply app_eq_nil in H as [_ H].
      apply app_eq_nil in H as [H _]. congruence.
  - intros [-> | ->]; reflexivity.
Qed.

(** C7, as amended: for every video whose track the API delivers,
    [fetch_transcript] returns the texts of the segments joined by
    spaces in their order; the string is empty exactly when there is no
    segment or a single segment with an empty text. *)
Theorem fetch_transcript_joined (e : env) (video_id language : str) (w : world)
    (segments : list segment) :
  youtube_transcript_api e video_id language = Entries segments ->
  transcript_joined false e video_id language w
  /\ (join (lit " ") (map text segments) = []
      <-> segments = [] \/ map text segments = [[]]).
Proof.
  intros Hapi. split.
  - intros segs Hsegs. rewrite Hapi in Hsegs. inversion Hsegs; subst segs.
    unfold fetch_transcript, bind, emit. cbv beta iota.
    rewrite Hapi. eexists; repeat split; discriminate.
  - rewrite join_nil_iff by discriminate.
    split; (intros [H | H]; [left | right; exact H]).
    + destruct segments; [reflexivity | discriminate].
    + subst; reflexivity.
Qed.

Lemma fetch_transcript_joined_witness :
  let e := sample_env (Returns []) [ {| text := lit "hello" |}; {| text := lit "world" |} ]
             (Returns tt) in
  youtube_transcript_api e (lit "abc123") (lit "en")
  = Entries [ {| text := lit "hello" |}; {| text := lit "world" |} ]
  /\ transcript_joined false e (lit "abc123") (lit "en") empty_world.
Proof.
  split; [reflexivity|].
  apply (@fetch_transcript_joined _ (lit "abc123") (lit "en") empty_world
           [ {| text := lit "hello" |}; {| text := lit "world" |} ]).
  reflexivity.
Defined.

(** C7, as stated, fails for a track without segments: the returned
    string is empty. *)
Lemma fetch_transcript_empty_track :
  ~ transcript_joined true (sample_env (Returns []) [] (Returns tt))
      (lit "abc123") (lit "en") empty_world.
Proof.
  intros H. destruct (H [] eq_refl) as (s & Hr & Hs & Hne).
  apply Hne; [reflexivity | exact Hs].
Qed.

(** ** Reasoning about runs *)

Section Keeps.

Variable I : world -> world -> Prop.
Variable P : event -> Prop.
Hypothesis I_refl : forall w, I w w.
Hypothesis I_trans : forall a b c, I a b -> I b c -> I a c.

Lemma keeps_ret (A : Type) (a : A) : keeps I P (ret a).
Proof. intros w; split; [apply I_refl | constructor]. Qed.

Lemma keeps_raise (A : Type) (x : exn) : keeps I P (@raise A x).
Proof. intros w; split; [apply I_refl | constructor]. Qed.

Lemma keeps_get_world : keeps I P get_world.
Proof. intros w; split; [apply I_refl | constructor]. Qed.

Lemma keeps_emit (ev : event) : P ev -> keeps I P (emit ev).
Proof. intros H w; split; [apply I_refl | repeat constructor; exact H]. Qed.

Lemma keeps_update (f : world -> world) :
  (forall w, I w (f w)) -> keeps I P (update f).
Proof. intros H w; split; [apply H | constructor]. Qed.

Lemma keeps_bind (A B : Type) (m : M A) (k : A -> M B) :
  keeps I P m -> (forall a, keeps I P (k a)) -> keeps I P (bind m k).
Proof.
  intros Hm Hk w. unfold bind, world_of, log_of in *.
  specialize (Hm w). destruct (m w) as [[r w1] l1]. simpl in Hm.
  destruct r as [a | x]; [|exact Hm].
  specialize (Hk a w1). destruct (k a w1) as [[r2 w2] l2]. simpl in *.
  split; [eapply I_trans; [apply Hm | apply Hk] | apply Forall_app; tauto].
Qed.

Lemma keeps_get_attr (A : Type) (field : SessionState -> option A) :
  keeps I P (get_attr field).
Proof.
  unfold get_attr. apply keeps_bind; [apply keeps_get_world|].
  intros w. destruct (field _); [apply keeps_ret | apply keeps_raise].
Qed.

Lemma keeps_index (A : Type) (l : list A) (n : nat) : keeps I P (index l n).
Proof.
  unfold index. destruct (nth_error l n); [apply keeps_ret | apply keeps_raise].
Qed.

Lemma keeps_open_rb (path : option str) : keeps I P (open_rb path).
Proof.
  unfold open_rb. destruct path; [|apply keeps_raise].
  apply keeps_bind; [apply keeps_get_world|].
  intros w. destruct (find _ _); [apply keeps_ret | apply keeps_raise].
Qed.

Lemma keeps_init_attr (A : Type) (field : SessionState -> option A)
    (f : SessionState -> SessionState) :
  (forall w, I w (with_session f w)) -> keeps I P (init_attr field f).
Proof.
  intros H. unfold init_attr. apply keeps_bind; [apply keeps_get_world|].
  intros w. destruct (field _); [apply keeps_ret | apply keeps_update, H].
Qed.

Lemma keeps_write_users (users : list user_doc) :
  (forall s, P (StWrite s)) -> keeps I P (write_users users).
Proof.
  intros H. induction users as [|u l IH]; simpl.
  - apply keeps_ret.
  - apply keeps_bind; [apply keeps_emit, H | intros _; exact IH].
Qed.

Lemma keeps_write_contents (contents : list content_doc) :
  (forall s, P (StWrite s)) -> keeps I P (write_contents contents).
Proof.
  intros H. induction contents as [|c l IH]; simpl.
  - apply keeps_ret.
  - apply keeps_bind; [apply keeps_emit, H | intros _; exact IH].
Qed.

End Keeps.

(** Syntax-directed proof of [keeps]; [side] settles what is asked of an
    emitted event or of a world update. *)
Ltac keeps_with Hrefl Htrans side :=
  repeat first
    [ eapply keeps_bind; [exact Htrans | | intros ?]
    | apply keeps_ret; exact Hrefl
    | apply keeps_raise; exact Hrefl
    | apply keeps_get_world; exact Hrefl
    | apply keeps_get_attr; [exact Hrefl | exact Htrans]
    | apply keeps_index; exact Hrefl
    | apply keeps_open_rb; [exact Hrefl | exact Htrans]
    | apply keeps_init_attr; [exact Hrefl | exact Htrans | solve [side]]
    | apply keeps_write_users; [exact Hrefl | exact Htrans | solve [side]]
    | apply keeps_write_contents; [exact Hrefl | exact Htrans | solve [side]]
    | apply keeps_emit; [exact Hrefl | solve [side]]
    | apply keeps_update; solve [side]
    | match goal with
      | |- keeps _ _ (if ?b then _ else _) => destruct b
      | |- keeps _ _ (match ?x with _ => _ end) => destruct x
      end ].

Lemma same_content_refl (w : world) : same_content w w.
Proof. reflexivity. Qed.

Lemma same_content_trans (a b c : world) :
  same_content a b -> same_content b c -> same_content a c.
Proof. unfold same_content; congruence. Qed.

Lemma same_session_refl (w : world) : same_session w w.
Proof. reflexivity. Qed.

Lemma same_session_trans (a b c : world) :
  same_session a b -> same_session b c -> same_session a c.
Proof. unfold same_session; congruence. Qed.

Lemma any_world_refl (w : world) : any_world w w.
Proof. exact Logic.I. Qed.

Lemma any_world_trans (a b c : world) :
  any_world a b -> any_world b c -> any_world a c.
Proof. intros _ _; exact Logic.I. Qed.

Ltac content_side := intros; reflexivity.

Ltac unfold_app :=
  unfold app_run, admin_login, main_app, show_translation_step,
    export_and_translate_step, generation_step, read_video_id,
    extract_video_id, admin_panel, generate_pdf, signup_page, login_page,
    translate_content, generate_content, fetch_transcript, insert_user, set_attr.

(** ** Account Store: the content collection *)

Lemma app_run_same_content (e : env) (i : inputs) :
  keeps same_content (fun ev => is_insert_content ev = false) (app_run e i).
Proof.
  unfold_app. keeps_with same_content_refl same_content_trans content_side.
Qed.

Example save_to_mongodb_inserts :
  let r := save_to_mongodb (sample_env (Returns []) [] (Returns tt))
             (lit "a@b.com") (lit "abc123") (lit "Summary") (lit "text") None
             empty_world in
  length (content_collection (world_of r)) = 1
  /\ existsb is_insert_content (log_of r) = true.
Proof. split; reflexivity. Qed.

(** C2: in every flow of the application, whatever the widget values
    and the answers of the outside at each run, the generated-content
    collection is the one the flow started with, and no run logs an
    insertion into it: [save_to_mongodb] is never reached. *)
Theorem content_collection_never_written (steps : list (env * inputs)) (w : world) :
  content_collection (fst (app_flow steps w)) = content_collection w
  /\ Forall (fun ev => is_insert_content ev = false) (snd (app_flow steps w)).
Proof.
  revert w. induction steps as [|[e i] rest IH]; intros w; simpl.
  - split; [reflexivity | constructor].
  - destruct (app_run_same_content e i w) as [Hc Hl].
    specialize (IH (world_of (app_run e i w))).
    destruct (app_flow rest (world_of (app_run e i w))) as [w' l']; simpl in *.
    split.
    + rewrite (proj1 IH). exact Hc.
    + apply Forall_app; split; [exact Hl | exact (proj2 IH)].
Qed.

(** ** Session Orchestrator: the link *)

Lemma bind_returns (A B : Type) (m : M A) (k : A -> M B) (w w1 : world)
    (a : A) (l1 : list event) :
  m w = (Ret a, w1, l1) ->
  bind m k w
  = (result_of (k a w1), world_of (k a w1), l1 ++ log_of (k a w1)).
Proof.
  intros H. unfold bind, result_of, world_of, log_of. rewrite H.
  destruct (k a w1) as [[r w2] l2]; reflexivity.
Qed.

Lemma bind_raises (A B : Type) (m : M A) (k : A -> M B) (w w1 : world)
    (x : exn) (l1 : list event) :
  m w = (Raise x, w1, l1) -> bind m k w = (Raise x, w1, l1).
Proof.
  intros H. unfold bind. rewrite H. reflexivity.
Qed.

Lemma read_video_id_unrecognised (i : inputs) (w : world) :
  youtube_link_input i <> [] ->
  unrecognised (youtube_link_input i) ->
  read_video_id i w
  = (Ret None, w, [StError (lit "Please enter a valid YouTube link.")]).
Proof.
  intros Hne [Hv Hy]. unfold read_video_id. rewrite Hv, Hy.
  destruct (youtube_link_input i); [congruence | reflexivity].
Qed.

(** What [main_app] runs once the link has given no identifier. *)
Lemma main_app_without_video_id (e : env) (i : inputs)
    (content_type : str) (n : Z) :
  keeps any_world (fun ev => is_transcript_call ev = false)
    (init_attr generated_content (set_generated_content None) ;;
     init_attr translated_content (set_translated_content None) ;;
     init_attr pdf_generated (set_pdf_generated false) ;;
     generation_step e i None content_type n ;;
     export_and_translate_step e i content_type ;;
     show_translation_step content_type).
Proof.
  unfold_app.
  keeps_with any_world_refl any_world_trans ltac:(intros; first [reflexivity | exact Logic.I]).
Qed.

(** C8, as amended: [main_app] recognises a link by one of two marks,
    [v=] or [youtu.be/]; for every non-empty link with neither,
    reading the identifier gives none, the run reports the link as
    invalid, and the transcript API is not called. *)
Theorem unrecognised_link_reported (e : env) (i : inputs) (w : world) :
  youtube_link_input i <> [] ->
  unrecognised (youtube_link_input i) ->
  result_of (read_video_id i w) = Ret None
  /\ parse_failure_reported e i w.
Proof.
  intros Hne Hun.
  pose proof (@read_video_id_unrecognised i w Hne Hun) as Hread.
  split; [rewrite Hread; reflexivity|].
  unfold parse_failure_reported, main_app.
  rewrite (@bind_returns _ _ (emit _) _ w w tt [_] eq_refl).
  rewrite (@bind_returns _ _ _ _ _ _ _ _ Hread).
  unfold log_of at 1 4. simpl snd.
  split.
  - right; left; reflexivity.
  - constructor; [reflexivity|]. constructor; [reflexivity|].
    apply main_app_without_video_id.
Qed.

Lemma unrecognised_link_reported_witness :
  let i := sample_inputs (lit "https://example.com/watch") None in
  youtube_link_input i <> [] /\ unrecognised (youtube_link_input i)
  /\ parse_failure_reported (sample_env (Returns []) [] (Returns tt)) i empty_world.
Proof.
  assert (Hne : lit "https://example.com/watch" <> []) by discriminate.
  assert (Hun : unrecognised (lit "https://example.com/watch"))
    by (split; reflexivity).
  split; [exact Hne | split; [exact Hun|]].
  exact (proj2 (@unrecognised_link_reported
                  (sample_env (Returns []) [] (Returns tt))
                  (sample_inputs (lit "https://example.com/watch") None)
                  empty_world Hne Hun)).
Defined.

(** C8, as stated, fails for the empty link: it has neither mark, and
    the run reports nothing. *)
Lemma empty_link_not_reported :
  unrecognised [] /\
  ~ parse_failure_reported (sample_env (Returns []) [] (Returns tt))
      (sample_inputs [] None) empty_world.
Proof.
  split; [split; reflexivity|].
  intros [Hin _]. vm_compute in Hin.
  destruct Hin as [H | H]; [discriminate H | exact H].
Qed.

Lemma pieces_from_contains (sep s : str) :
  sep <> [] -> contains sep s = true -> snd (pieces_from sep 0 s) <> [].
Proof.
  intros Hsep. induction s as [|c s IH]; intros H.
  - destruct sep; [congruence | discriminate H].
  - cbn [contains] in H. cbn [pieces_from].
    destruct (startswith (c :: s) sep).
    + destruct (pieces_from sep (pred (length sep)) s); discriminate.
    + simpl in H. specialize (IH H).
      destruct (pieces_from sep 0 s); exact IH.
Qed.

(** A link with one of the two marks always yields an identifier. *)
Lemma recognised_link_parsed (i : inputs) (w : world) :
  contains (lit "v=") (youtube_link_input i)
  || contains (lit "youtu.be/") (youtube_link_input i) = true ->
  exists video_id, result_of (read_video_id i w) = Ret (Some video_id).
Proof.
  intros H. unfold read_video_id. rewrite H.
  destruct (youtube_link_input i) as [|c link] eqn:E; [discriminate H|].
  cbn [truthy]. unfold extract_video_id.
  destruct (contains (lit "v=") (c :: link)) eqn:Hv.
  - pose proof (@pieces_from_contains (lit "v=") (c :: link) ltac:(discriminate) Hv) as Hp.
    unfold split_on at 1. revert Hp.
    destruct (pieces_from (lit "v=") 0 (c :: link)) as [p0 [|p1 ps]];
      intros Hp; [simpl in Hp; congruence|].
    unfold result_of, bind, index. cbn [nth_error]. unfold ret at 1.
    cbv beta iota. unfold split_on.
    destruct (pieces_from (lit "&") 0 p1) as [q0 qs].
    eexists. reflexivity.
  - simpl in H.
    pose proof (@pieces_from_contains (lit "youtu.be/") (c :: link) ltac:(discriminate) H) as Hp.
    unfold split_on. revert Hp.
    destruct (pieces_from (lit "youtu.be/") 0 (c :: link)) as [p0 [|p1 ps]];
      intros Hp; [simpl in Hp; congruence|].
    eexists. reflexivity.
Qed.

Example short_link_identifier :
  result_of (read_video_id (sample_inputs (lit "https://youtu.be/abc123") None)
               empty_world)
  = Ret (Some (lit "abc123")).
Proof. reflexivity. Qed.

Example watch_link_identifier :
  result_of (read_video_id
               (sample_inputs (lit "https://www.youtube.com/watch?v=abc123&t=5") None)
               empty_world)
  = Ret (Some (lit "abc123")).
Proof. reflexivity. Qed.

(** The mark [v=] is looked for anywhere in the link. *)
Example other_parameter_identifier :
  result_of (read_video_id (sample_inputs (lit "https://example.com/?rev=3") None)
               empty_world)
  = Ret (Some (lit "3")).
Proof. reflexivity. Qed.

(** ** Session Orchestrator: invalidation *)

Lemma bind_cases (A B : Type) (m : M A) (k : A -> M B) (w : world)
    (Q : res B * world * list event -> Prop) :
  (forall a w1 l1, m w = (Ret a, w1, l1) ->
     Q (result_of (k a w1), world_of (k a w1), l1 ++ log_of (k a w1))) ->
  (forall x w1 l1, m w = (Raise x, w1, l1) -> Q (Raise x, w1, l1)) ->
  Q (bind m k w).
Proof.
  intros HR HX. destruct (m w) as [[[a | x] w1] l1] eqn:E.
  - rewrite (@bind_returns _ _ _ _ _ _ _ _ E). apply HR. reflexivity.
  - rewrite (@bind_raises _ _ _ _ _ _ _ _ E). apply HX. reflexivity.
Qed.

Lemma no_model_call (l : list event) :
  Forall (fun ev => is_model_call ev = false) l ->
  existsb is_model_call l = false.
Proof.
  induction 1 as [|ev l Hev Hl IH]; simpl; [reflexivity|].
  rewrite Hev, IH. reflexivity.
Qed.

Lemma st_button_clicked (i : inputs) (b : button) :
  st_button i b = true -> clicked i = Some b.
Proof.
  unfold st_button. destruct (clicked i) as [b'|]; [|discriminate].
  destruct b, b'; simpl; intros H; try discriminate H; reflexivity.
Qed.

Lemma fetch_transcript_run (e : env) (video_id language : str) (w : world) :
  exists t l,
    fetch_transcript e video_id language w = (Ret t, w, l)
    /\ existsb is_model_call l = false.
Proof.
  unfold fetch_transcript, bind, emit, ret. cbv beta iota.
  destruct (youtube_transcript_api e video_id language);
    do 2 eexists; split; reflexivity.
Qed.

Lemma generate_content_run (e : env) (content_type transcript : str)
    (n : option Z) (w : world) :
  exists g l, generate_content e content_type transcript n w = (Ret g, w, l).
Proof.
  unfold generate_content, bind, emit, ret.
  destruct (select_prompt content_type n); cbv beta iota.
  - destruct (generative_model e _); do 2 eexists; reflexivity.
  - do 2 eexists; reflexivity.
Qed.

(** Lines 230-239 alone: when the step calls the model, the button was
    the generation button and the two fields are reset. *)
Lemma generation_step_invalidates (e : env) (i : inputs) (video_id : option str)
    (content_type : str) (n : Z) (w : world) :
  let r := generation_step e i video_id content_type n w in
  existsb is_model_call (log_of r) = true ->
  clicked i = Some BtnGenerateContent
  /\ translated_content (session_state (world_of r)) = Some None
  /\ pdf_generated (session_state (world_of r)) = Some false.
Proof.
  unfold generation_step.
  destruct video_id as [vid|]; [|discriminate].
  destruct (truthy vid); [|discriminate].
  destruct (fetch_transcript_run e vid (lit "en") w) as (t & l & Hf & Hl).
  rewrite (@bind_returns _ _ _ _ _ _ _ _ Hf).
  destruct t as [t|];
    [|unfold log_of; simpl; rewrite app_nil_r, Hl; discriminate].
  destruct (truthy t);
    [|unfold log_of; simpl; rewrite app_nil_r, Hl; discriminate].
  destruct (st_button i BtnGenerateContent) eqn:Hb;
    [|unfold log_of; simpl; rewrite app_nil_r, Hl; discriminate].
  intros _. split; [apply st_button_clicked; exact Hb|].
  destruct (eqb content_type (lit "Summary")).
  - destruct (generate_content_run e content_type t (Some n) w) as (g & lg & Hg).
    rewrite (@bind_returns _ _ _ _ _ _ _ _ Hg). split; reflexivity.
  - destruct (generate_content_run e content_type t None w) as (g & lg & Hg).
    rewrite (@bind_returns _ _ _ _ _ _ _ _ Hg). split; reflexivity.
Qed.

Lemma invalidated_after_quiet_prefix (A : Type) (m : M A) (k : A -> M unit)
    (w : world) :
  keeps any_world (fun ev => is_model_call ev = false) m ->
  (forall a w1, invalidated_if_generated (k a w1)) ->
  invalidated_if_generated (bind m k w).
Proof.
  intros Hm Hk. destruct (Hm w) as [_ Hl].
  apply bind_cases; intros r w1 l1 E; rewrite E in Hl;
    unfold log_of in Hl; simpl in Hl; apply no_model_call in Hl.
  - intros H. unfold log_of in H; simpl in H.
    rewrite existsb_app, Hl in H. simpl in H.
    apply (Hk r w1 H).
  - intros H. unfold log_of in H; simpl in H. congruence.
Qed.

Lemma export_and_show_no_model_call (e : env) (i : inputs) (content_type : str) :
  keeps any_world (fun ev => is_model_call ev = false)
    (export_and_translate_step e i content_type ;;
     show_translation_step content_type).
Proof.
  unfold_app.
  keeps_with any_world_refl any_world_trans ltac:(intros; first [reflexivity | exact Logic.I]).
Qed.

Lemma export_and_show_same_session (e : env) (i : inputs) (content_type : str) :
  clicked i = Some BtnGenerateContent ->
  keeps same_session any_event
    (export_and_translate_step e i content_type ;;
     show_translation_step content_type).
Proof.
  intros Hc. unfold_app. unfold st_button. rewrite Hc. cbn [button_eqb].
  keeps_with same_session_refl same_session_trans ltac:(intros; first [reflexivity | exact Logic.I]).
Qed.

Lemma main_app_quiet_prefix (i : inputs) :
  keeps any_world (fun ev => is_model_call ev = false) (read_video_id i).
Proof.
  unfold_app.
  keeps_with any_world_refl any_world_trans ltac:(intros; first [reflexivity | exact Logic.I]).
Qed.

Lemma invalidated_from_generation_step (e : env) (i : inputs)
    (video_id : option str) (content_type : str) (n : Z) (w : world) :
  invalidated_if_generated
    ((generation_step e i video_id content_type n ;;
      export_and_translate_step e i content_type ;;
      show_translation_step content_type) w).
Proof.
  pose proof (@generation_step_invalidates e i video_id content_type n w) as Hgen.
  cbv zeta in Hgen.
  pose proof (export_and_show_no_model_call e i content_type) as Hquiet.
  apply bind_cases; intros r w1 l1 E; rewrite E in Hgen;
    unfold log_of, world_of in Hgen; simpl in Hgen.
  - intros H. unfold log_of in H; simpl in H. rewrite existsb_app in H.
    destruct (existsb is_model_call l1).
    + destruct (Hgen eq_refl) as (Hc & Ht & Hp).
      destruct (@export_and_show_same_session e i content_type Hc w1) as [Hs _].
      unfold same_session in Hs. unfold world_of at 1 3. simpl fst. simpl snd.
      rewrite Hs. split; assumption.
    + destruct (Hquiet w1) as [_ Hl]. apply no_model_call in Hl.
      simpl in H. unfold log_of in Hl. congruence.
  - intros H. unfold log_of in H; simpl in H.
    destruct (Hgen H) as (_ & Ht & Hp). split; assumption.
Qed.

(** C6: for every session state, every run of [main_app] in which a
    generation takes place (the generative model is called) leaves the
    session with the translated content cleared and the export flag
    reset to false, whatever these fields held before and whatever the
    backend answers. *)
Theorem generation_invalidates (e : env) (i : inputs) (w : world) :
  existsb is_model_call (log_of (main_app e i w)) = true ->
  translated_content (session_state (world_of (main_app e i w))) = Some None
  /\ pdf_generated (session_state (world_of (main_app e i w))) = Some false.
Proof.
  change (invalidated_if_generated (main_app e i w)). unfold main_app.
  apply invalidated_after_quiet_prefix.
  { apply keeps_emit; [exact any_world_refl | reflexivity]. }
  intros _ w1. apply invalidated_after_quiet_prefix.
  { apply main_app_quiet_prefix. }
  intros video_id w2. apply invalidated_after_quiet_prefix.
  { apply keeps_init_attr;
      [exact any_world_refl | exact any_world_trans | intros; exact Logic.I]. }
  intros _ w3. apply invalidated_after_quiet_prefix.
  { apply keeps_init_attr;
      [exact any_world_refl | exact any_world_trans | intros; exact Logic.I]. }
  intros _ w4. apply invalidated_after_quiet_prefix.
  { apply keeps_init_attr;
      [exact any_world_refl | exact any_world_trans | intros; exact Logic.I]. }
  intros _ w5. apply invalidated_from_generation_step.
Qed.

Lemma generation_invalidates_witness :
  let e := sample_env (Returns (lit "a short summary"))
             [ {| text := lit "hello world this is a test" |} ] (Returns tt) in
  let i := sample_inputs (lit "https://youtu.be/abc123") (Some BtnGenerateContent) in
  let w := sample_world (sample_session (Some (lit "old")) (Some (lit "alt")) true) in
  existsb is_model_call (log_of (main_app e i w)) = true
  /\ translated_content (session_state (world_of (main_app e i w))) = Some None
  /\ pdf_generated (session_state (world_of (main_app e i w))) = Some false.
Proof.
  split; [vm_compute; reflexivity|].
  apply generation_invalidates. vm_compute; reflexivity.
Defined.

(** ** The entry point *)

Lemma app_run_dispatch (e : env) (i : inputs) (w : world) :
  app_run e i w
  = match screen_of (session_state (init_flags w)) with
    | UserSession => main_app e i (init_flags w)
    | AdminSession => admin_panel i (init_flags w)
    | Unauthenticated =>
        match option_radio i with
        | OptLogin => login_page e i (init_flags w)
        | OptSignUp => signup_page e i (init_flags w)
        | OptAdminLogin => admin_login e i (init_flags w)
        end
    end.
Proof.
  destruct w as [us cs [li ue ad gc tc pg] fs].
  destruct li as [[|]|], ad as [[|]|]; unfold app_run;
    cbv beta iota zeta delta
      [init_flags world_of bind init_attr get_attr get_world set_attr update ret
       with_session session_state logged_in is_admin_logged_in set_logged_in
       set_is_admin_logged_in users_collection content_collection files
       user_email generated_content translated_content pdf_generated
       fst snd app screen_of];
    try (destruct (option_radio i));
    match goal with
    | |- _ = ?x => destruct x as [[? ?] ?]
    end; reflexivity.
Qed.

(** ** Account Store: registration *)

Lemma signup_page_idle (e : env) (i : inputs) (w : world) :
  st_button i BtnSignUp = false ->
  signup_page e i w = (Ret tt, w, [StTitle (lit "Sign Up")]).
Proof.
  intros Hb. unfold signup_page. rewrite Hb. reflexivity.
Qed.

Lemma signup_page_exists (e : env) (i : inputs) (w : world) (u : user_doc) :
  st_button i BtnSignUp = true ->
  find_one (email_input i) (users_collection w) = Some u ->
  signup_page e i w
  = (Ret tt, w, [StTitle (lit "Sign Up"); StError (lit "User already exists.")]).
Proof.
  intros Hb Hf. unfold signup_page. rewrite Hb.
  unfold bind, emit, get_world. cbv beta iota. rewrite Hf. reflexivity.
Qed.

Lemma signup_page_registers (e : env) (i : inputs) (w : world) :
  st_button i BtnSignUp = true ->
  find_one (email_input i) (users_collection w) = None ->
  let d := {| u_email := email_input i;
              u_password := hashpw e (encode_utf8 (password_input i)) (gensalt e) |} in
  signup_page e i w
  = (Raise RerunException,
     {| users_collection := users_collection w ++ [d];
        content_collection := content_collection w;
        session_state :=
          set_user_email None
            (set_logged_in false
               (set_user_email (Some (email_input i))
                  (set_logged_in true (session_state w))));
        files := files w |},
     [StTitle (lit "Sign Up"); InsertUser d; registration_success]).
Proof.
  intros Hb Hf. unfold signup_page. rewrite Hb.
  unfold bind, emit, get_world. cbv beta iota. rewrite Hf. reflexivity.
Qed.

(** A run of the sign-up page that shows the success message has
    inserted a user that was not in the store. *)
Lemma signup_success_inv (e : env) (i : inputs) (w : world) :
  In registration_success (log_of (signup_page e i w)) ->
  st_button i BtnSignUp = true
  /\ find_one (email_input i) (users_collection w) = None.
Proof.
  intros H.
  destruct (st_button i BtnSignUp) eqn:Hb.
  - destruct (find_one (email_input i) (users_collection w)) as [u|] eqn:Hf;
      [|split; reflexivity].
    rewrite (signup_page_exists e i w Hb Hf) in H.
    destruct H as [H | [H | []]]; discriminate H.
  - rewrite (signup_page_idle e i w Hb) in H.
    destruct H as [H | []]; discriminate H.
Qed.

Lemma find_none_filter (A : Type) (f : A -> bool) (l : list A) :
  find f l = None -> filter f l = [].
Proof.
  induction l as [|x l IH]; simpl; [reflexivity|].
  destruct (f x); [discriminate | exact IH].
Qed.

Lemma find_app_none (A : Type) (f : A -> bool) (l l' : list A) :
  find f l = None -> find f (l ++ l') = find f l'.
Proof.
  induction l as [|x l IH]; simpl; [reflexivity|].
  destruct (f x); [discriminate | exact IH].
Qed.

(** X23: no automatic login: for every run of the sign-up page that
    registers a user, the run ends with the logged-in flag false and
    the user identifier cleared; it leaves by [st.rerun()], and the
    screen that the entry point shows next is not the user session (it
    is the unauthenticated one whenever the sign-up page was reached
    from it). *)
Theorem signup_does_not_log_in (e : env) (i : inputs) (w : world) :
  In registration_success (log_of (signup_page e i w)) ->
  let r := signup_page e i w in
  logged_in (session_state (world_of r)) = Some false
  /\ user_email (session_state (world_of r)) = Some None
  /\ result_of r = Raise RerunException
  /\ screen_of (session_state (world_of r)) <> UserSession
  /\ (screen_of (session_state w) = Unauthenticated ->
      screen_of (session_state (world_of r)) = Unauthenticated).
Proof.
  intros H. destruct (signup_success_inv e i w H) as [Hb Hf].
  cbv zeta. rewrite (signup_page_registers e i w Hb Hf).
  unfold world_of, result_of, screen_of; simpl.
  repeat split.
  - destruct (is_admin_logged_in (session_state w)) as [[|]|]; discriminate.
  - destruct (logged_in (session_state w)) as [[|]|]; [discriminate | auto | auto].
Qed.

Lemma signup_does_not_log_in_witness :
  let e := sample_env (Returns []) [] (Returns tt) in
  let i := sample_inputs [] (Some BtnSignUp) in
  In registration_success (log_of (signup_page e i empty_world))
  /\ logged_in (session_state (world_of (signup_page e i empty_world))) = Some false
  /\ user_email (session_state (world_of (signup_page e i empty_world))) = Some None.
Proof.
  assert (H : In registration_success
                (log_of (signup_page (sample_env (Returns []) [] (Returns tt))
                           (sample_inputs [] (Some BtnSignUp)) empty_world)))
    by (right; right; left; reflexivity).
  split; [exact H|].
  pose proof (@signup_does_not_log_in _ _ _ H) as (H1 & H2 & _).
  split; [exact H1 | exact H2].
Defined.

(** C4: when a run of the sign-up page registers an identifier, a
    second sign-up with the same identifier, whatever the password,
    shows that the user already exists and changes nothing, and the
    store holds exactly one user with that identifier. *)
Theorem register_twice_rejected (e1 e2 : env) (i1 i2 : inputs) (w : world) :
  In registration_success (log_of (signup_page e1 i1 w)) ->
  clicked i2 = Some BtnSignUp ->
  email_input i2 = email_input i1 ->
  let w1 := world_of (signup_page e1 i1 w) in
  signup_page e2 i2 w1
  = (Ret tt, w1, [StTitle (lit "Sign Up"); StError (lit "User already exists.")])
  /\ count_users (email_input i1) (users_collection (world_of (signup_page e2 i2 w1))) = 1.
Proof.
  intros H Hc He. destruct (signup_success_inv e1 i1 w H) as [Hb Hf].
  cbv zeta. remember (world_of (signup_page e1 i1 w)) as w1 eqn:Hw1.
  rewrite (signup_page_registers e1 i1 w Hb Hf) in Hw1.
  unfold world_of in Hw1; cbn [fst snd] in Hw1.
  set (d := {| u_email := email_input i1;
               u_password := hashpw e1 (encode_utf8 (password_input i1)) (gensalt e1) |})
    in Hw1.
  assert (Hu : users_collection w1 = users_collection w ++ [d])
    by (rewrite Hw1; reflexivity).
  clear Hw1.
  assert (Hb2 : st_button i2 BtnSignUp = true)
    by (unfold st_button; rewrite Hc; reflexivity).
  unfold find_one in Hf.
  assert (Hf2 : find_one (email_input i2) (users_collection w1) = Some d).
  { rewrite He, Hu. unfold find_one. rewrite (find_app_none _ _ [d] Hf).
    cbn [find u_email d]. rewrite eqb_refl. reflexivity. }
  rewrite (signup_page_exists e2 i2 w1 Hb2 Hf2).
  split; [reflexivity|].
  unfold world_of, count_users; cbn [fst snd]. rewrite Hu, filter_app.
  rewrite (find_none_filter _ _ Hf).
  cbn [filter app u_email d]. rewrite eqb_refl. reflexivity.
Qed.

Lemma register_twice_rejected_witness :
  let e := sample_env (Returns []) [] (Returns tt) in
  let i := sample_inputs [] (Some BtnSignUp) in
  let w1 := world_of (signup_page e i empty_world) in
  In registration_success (log_of (signup_page e i empty_world))
  /\ count_users (lit "a@b.com")
       (users_collection (world_of (signup_page e i w1))) = 1.
Proof.
  assert (H : In registration_success
                (log_of (signup_page (sample_env (Returns []) [] (Returns tt))
                           (sample_inputs [] (Some BtnSignUp)) empty_world)))
    by (right; right; left; reflexivity).
  split; [exact H|].
  exact (proj2 (@register_twice_rejected _ _ _ (sample_inputs [] (Some BtnSignUp))
                  _ H eq_refl eq_refl)).
Defined.

(** ** Account Store: authentication *)

Lemma login_page_rejects (e : env) (i : inputs) (w : world) :
  clicked i = Some BtnLogin ->
  match find_one (email_input i) (users_collection w) with
  | Some u => checkpw e (encode_utf8 (password_input i)) (u_password u)
  | None => false
  end = false ->
  login_page e i w
  = (Ret tt, w, [StTitle (lit "Login"); StError (lit "Invalid email or password.")]).
Proof.
  intros Hc Hf. unfold login_page, st_button. rewrite Hc. cbn [button_eqb].
  unfold bind, emit, get_world. cbv beta iota zeta. rewrite Hf. reflexivity.
Qed.

Example login_page_accepts :
  let e := sample_env (Returns []) [] (Returns tt) in
  let w := world_of (signup_page e (sample_inputs [] (Some BtnSignUp)) empty_world) in
  let r := login_page e (sample_inputs [] (Some BtnLogin)) w in
  logged_in (session_state (world_of r)) = Some true
  /\ user_email (session_state (world_of r)) = Some (Some (lit "a@b.com"))
  /\ log_of r = [StTitle (lit "Login"); StSuccess (lit "Login successful!")].
Proof. repeat split. Qed.

(** C5: a login that fails because the identifier is not in the store
    and a login that fails because the password does not match the
    stored hash give the same result and show the same message, and
    neither changes the world: the two runs differ in nothing that the
    page returns or shows. *)
Theorem login_failure_uniform (e1 e2 : env) (i1 i2 : inputs) (w1 w2 : world)
    (u : user_doc) :
  clicked i1 = Some BtnLogin ->
  clicked i2 = Some BtnLogin ->
  find_one (email_input i1) (users_collection w1) = None ->
  find_one (email_input i2) (users_collection w2) = Some u ->
  checkpw e2 (encode_utf8 (password_input i2)) (u_password u) = false ->
  result_of (login_page e1 i1 w1) = result_of (login_page e2 i2 w2)
  /\ log_of (login_page e1 i1 w1) = log_of (login_page e2 i2 w2)
  /\ log_of (login_page e1 i1 w1)
     = [StTitle (lit "Login"); StError (lit "Invalid email or password.")]
  /\ world_of (login_page e1 i1 w1) = w1
  /\ world_of (login_page e2 i2 w2) = w2.
Proof.
  intros Hc1 Hc2 Hnone Hsome Hpw.
  rewrite (login_page_rejects e1 i1 w1 Hc1) by (rewrite Hnone; reflexivity).
  rewrite (login_page_rejects e2 i2 w2 Hc2) by (rewrite Hsome; exact Hpw).
  repeat split.
Qed.

Lemma login_failure_uniform_witness :
  let e := sample_env (Returns []) [] (Returns tt) in
  let absent := login_inputs (lit "c@d.com") (lit "p1") in
  let wrong := login_inputs (lit "a@b.com") (lit "p2") in
  let w := world_of (signup_page e (sample_inputs [] (Some BtnSignUp)) empty_world) in
  find_one (email_input absent) (users_collection w) = None
  /\ (exists u, find_one (email_input wrong) (users_collection w) = Some u
                /\ checkpw e (encode_utf8 (password_input wrong)) (u_password u) = false)
  /\ log_of (login_page e absent w) = log_of (login_page e wrong w).
Proof.
  split; [reflexivity|].
  split; [eexists; split; reflexivity|].
  refine (proj1 (proj2 (@login_failure_uniform
                          (sample_env (Returns []) [] (Returns tt))
                          (sample_env (Returns []) [] (Returns tt))
                          (login_inputs (lit "c@d.com") (lit "p1"))
                          (login_inputs (lit "a@b.com") (lit "p2"))
                          (world_of (signup_page (sample_env (Returns []) [] (Returns tt))
                                       (sample_inputs [] (Some BtnSignUp)) empty_world))
                          (world_of (signup_page (sample_env (Returns []) [] (Returns tt))
                                       (sample_inputs [] (Some BtnSignUp)) empty_world))
                          _ eq_refl eq_refl eq_refl eq_refl eq_refl))).
Defined.

(** ** Exporter *)

Lemma generate_pdf_fails (e : env) (content content_type : str) (w : world)
    (msg : str) :
  canvas_save e (lit "/tmp/generated_content_reportlab.pdf")
    (pdf_page content content_type) = Raises msg ->
  generate_pdf e content content_type w
  = (Ret None, w,
     [CallCanvasSave (lit "/tmp/generated_content_reportlab.pdf")
        (pdf_page content content_type);
      PyPrint (lit "Error generating PDF: " ++ msg)]).
Proof.
  intros H. unfold generate_pdf, bind, emit. cbv beta iota zeta.
  rewrite H. reflexivity.
Qed.

Lemma generate_pdf_succeeds (e : env) (content content_type : str) (w : world) :
  canvas_save e (lit "/tmp/generated_content_reportlab.pdf")
    (pdf_page content content_type) = Returns tt ->
  result_of (generate_pdf e content content_type w)
  = Ret (Some (lit "/tmp/generated_content_reportlab.pdf"))
  /\ open_rb (Some (lit "/tmp/generated_content_reportlab.pdf"))
       (world_of (generate_pdf e content content_type w))
     = (Ret (pdf_page content content_type),
        world_of (generate_pdf e content content_type w), []).
Proof.
  intros H. unfold generate_pdf, bind, emit, update. cbv beta iota zeta.
  rewrite H. split; reflexivity.
Qed.

Example pdf_page_example :
  pdf_page (lit "a" ++ newline ++ lit "b") (lit "Notes")
  = [SetFont (lit "Helvetica") 16;
     DrawString 100 750 (lit "Notes Content");
     SetFont (lit "Helvetica") 12;
     DrawString 50 700 (lit "a");
     DrawString 50 680 (lit "b")].
Proof. reflexivity. Qed.

(** C3, on a run in which rendering fails: [generate_pdf] catches the
    failure and returns no path, but only prints it; no error is shown
    to the user, and [main_app] hands the missing path to [open], which
    raises and ends the run before the translation part. *)
Theorem export_failure_unreported :
  let e := sample_env (Returns []) [] (Raises (lit "disk full")) in
  let i := sample_inputs [] (Some BtnTranslateContent) in
  let w := sample_world (sample_session (Some (lit "text")) None false) in
  result_of (generate_pdf e (lit "text") (lit "Summary") w) = Ret None
  /\ result_of (main_app e i w) = Raise TypeError
  /\ existsb is_st_error (log_of (main_app e i w)) = false
  /\ In (PyPrint (lit "Error generating PDF: disk full")) (log_of (main_app e i w))
  /\ translated_content (session_state (world_of (main_app e i w))) = Some None.
Proof.
  cbv zeta. repeat split; try reflexivity.
  vm_compute. right; right; right; left; reflexivity.
Qed.

(** ** More on strings: [split(sep)] *)

Lemma startswith_app (p r : str) : startswith (p ++ r) p = true.
Proof.
  induction p as [|x p IH]; simpl; [destruct r; reflexivity|].
  unfold char_eqb. rewrite N.eqb_refl. exact IH.
Qed.

Lemma startswith_inv (s p : str) :
  startswith s p = true -> exists r, s = p ++ r.
Proof.
  revert s; induction p as [|x p IH]; intros s H.
  - exists s; reflexivity.
  - destruct s as [|y s]; [discriminate H|]. simpl in H.
    apply andb_true_iff in H as [Hxy H]. apply N.eqb_eq in Hxy. subst y.
    destruct (IH s H) as [r ->]. exists r; reflexivity.
Qed.

(** Only the first [length p] characters matter. *)
Lemma startswith_short (a b p : str) :
  length p <= length a -> startswith (a ++ b) p = startswith a p.
Proof.
  revert a; induction p as [|x p IH]; intros a H;
    [destruct a, b; reflexivity|].
  destruct a as [|y a]; simpl in *; [lia|].
  rewrite IH by lia. reflexivity.
Qed.

Lemma pieces_from_skip (sep p r : str) :
  pieces_from sep (length p) (p ++ r) = pieces_from sep 0 r.
Proof.
  induction p as [|x p IH]; [reflexivity | exact IH].
Qed.

Lemma split_on_match (sep r : str) :
  sep <> [] -> split_on sep (sep ++ r) = [] :: split_on sep r.
Proof.
  intros Hsep. destruct sep as [|c sep']; [congruence|].
  unfold split_on. change ((c :: sep') ++ r) with (c :: (sep' ++ r)).
  cbn [pieces_from].
  change (c :: sep' ++ r) with ((c :: sep') ++ r). rewrite startswith_app.
  cbn [length pred]. rewrite pieces_from_skip.
  destruct (pieces_from (c :: sep') 0 r); reflexivity.
Qed.

Lemma split_on_other (sep : str) (c : char) (s : str) :
  startswith (c :: s) sep = false ->
  split_on sep (c :: s)
  = (c :: hd [] (split_on sep s)) :: tl (split_on sep s).
Proof.
  intros H. unfold split_on. cbn [pieces_from]. rewrite H.
  destruct (pieces_from sep 0 s); reflexivity.
Qed.

Lemma split_on_not_nil (sep s : str) : split_on sep s <> [].
Proof. unfold split_on. destruct (pieces_from sep 0 s); discriminate. Qed.

Lemma join_cons_char (sep : str) (c : char) (l : list str) :
  l <> [] -> join sep ((c :: hd [] l) :: tl l) = c :: join sep l.
Proof.
  destruct l as [|w [|w' ws]]; [congruence | reflexivity | reflexivity].
Qed.

Lemma join_split_on_bounded (sep : str) (n : nat) (s : str) :
  sep <> [] -> length s <= n -> join sep (split_on sep s) = s.
Proof.
  intros Hsep. revert s. induction n as [|n IH]; intros s Hn.
  - destruct s; [reflexivity | simpl in Hn; lia].
  - destruct s as [|c s]; [reflexivity|].
    destruct (startswith (c :: s) sep) eqn:Hs.
    + destruct (startswith_inv _ _ Hs) as [r Hr]. rewrite Hr.
      rewrite split_on_match by assumption.
      assert (Hlen : length r <= n).
      { apply (f_equal (@length char)) in Hr. rewrite length_app in Hr.
        simpl in Hr, Hn. destruct sep; [congruence | simpl in Hr; lia]. }
      pose proof (IH r Hlen) as Hj.
      pose proof (@split_on_not_nil sep r) as Hne.
      destruct (split_on sep r) as [|w ws]; [congruence|].
      change (join sep ([] :: w :: ws)) with ([] ++ sep ++ join sep (w :: ws)).
      rewrite Hj. reflexivity.
    + rewrite split_on_other by assumption.
      rewrite join_cons_char by apply split_on_not_nil.
      rewrite IH by (simpl in Hn; lia). reflexivity.
Qed.

Lemma contains_startswith (sep s : str) :
  startswith s sep = true -> contains sep s = true.
Proof.
  intros H. destruct s; cbn [contains]; rewrite H; reflexivity.
Qed.

Lemma contains_app_match (sep p r : str) : contains sep (p ++ sep ++ r) = true.
Proof.
  induction p as [|x p IH].
  - change ([] ++ sep ++ r) with (sep ++ r).
    apply contains_startswith, startswith_app.
  - change ((x :: p) ++ sep ++ r) with (x :: (p ++ sep ++ r)).
    cbn [contains]. rewrite IH. apply orb_true_r.
Qed.

Lemma contains_cons_false (sep : str) (c : char) (s : str) :
  contains sep (c :: s) = false ->
  startswith (c :: s) sep = false /\ contains sep s = false.
Proof.
  cbn [contains]. intros H. apply orb_false_iff in H. exact H.
Qed.

(** Without an occurrence of the separator there is one piece. *)
Lemma split_on_absent (sep s : str) :
  contains sep s = false -> split_on sep s = [s].
Proof.
  induction s as [|c s IH]; intros H; [reflexivity|].
  apply contains_cons_false in H as [Hs Hc].
  rewrite split_on_other by assumption. rewrite (IH Hc). reflexivity.
Qed.

(** The piece before the first occurrence: when the separator does not
    occur in [p] followed by all but the last character of the
    separator, the first piece of [p ++ sep ++ r] is [p]. *)
Lemma split_on_first (sep p r : str) :
  sep <> [] ->
  contains sep (p ++ removelast sep) = false ->
  split_on sep (p ++ sep ++ r) = p :: split_on sep r.
Proof.
  intros Hsep. induction p as [|c p IH]; intros H.
  - change ([] ++ sep ++ r) with (sep ++ r).
    apply split_on_match; assumption.
  - change ((c :: p) ++ removelast sep) with (c :: (p ++ removelast sep)) in H.
    apply contains_cons_false in H as [Hs Hc].
    change ((c :: p) ++ sep ++ r) with (c :: (p ++ sep ++ r)).
    rewrite split_on_other.
    + rewrite (IH Hc). reflexivity.
    + rewrite <- Hs.
      pose proof (app_removelast_last 0%N Hsep) as E.
      set (rl := removelast sep) in *. set (l := last sep 0%N) in *.
      assert (E2 : c :: p ++ sep ++ r = (c :: p ++ rl) ++ [l] ++ r).
      { rewrite E. simpl. rewrite <- !app_assoc. reflexivity. }
      rewrite E2. apply startswith_short.
      apply (f_equal (@length char)) in E. rewrite length_app in E.
      simpl in *. rewrite length_app. unfold rl, str, char in *. lia.
Qed.



(** ** The identifier of a link *)

Lemma index_split_on_0 (sep s : str) (w : world) :
  index (split_on sep s) 0 w = (Ret (hd [] (split_on sep s)), w, []).
Proof.
  pose proof (@split_on_not_nil sep s) as H.
  destruct (split_on sep s); [congruence | reflexivity].
Qed.

(** Line 213 on a link that holds [v=]: the piece after the first [v=],
    cut at its first [&]. *)
Lemma extract_video_id_watch (link : str) (w : world) :
  contains (lit "v=") link = true ->
  exists after,
    nth_error (split_on (lit "v=") link) 1 = Some after
    /\ extract_video_id link w
       = (Ret (hd [] (split_on (lit "&") after)), w, []).
Proof.
  intros Hv. unfold extract_video_id. rewrite Hv.
  pose proof (@pieces_from_contains (lit "v=") link ltac:(discriminate) Hv) as Hp.
  unfold split_on at 1 2. revert Hp.
  destruct (pieces_from (lit "v=") 0 link) as [p0 [|p1 ps]];
    intros Hp; [simpl in Hp; congruence|].
  exists p1. split; [reflexivity|].
  unfold bind, index at 1. cbn [nth_error]. unfold ret at 1. cbv beta iota.
  rewrite index_split_on_0. reflexivity.
Qed.

Lemma read_video_id_recognised (i : inputs) (w : world) (video_id : str) :
  youtube_link_input i <> [] ->
  contains (lit "v=") (youtube_link_input i)
  || contains (lit "youtu.be/") (youtube_link_input i) = true ->
  extract_video_id (youtube_link_input i) w = (Ret video_id, w, []) ->
  read_video_id i w = (Ret (Some video_id), w, [thumbnail video_id]).
Proof.
  intros Hne Hc He. unfold read_video_id. rewrite Hc.
  destruct (youtube_link_input i) as [|c link]; [congruence|].
  cbn [truthy]. rewrite (@bind_returns _ _ _ _ _ _ _ _ He). reflexivity.
Qed.



(** X2: a watch link [P v= ID] or [P v= ID & more], where [v=] occurs
    neither before the mark nor after it and [ID] holds no [&], yields
    exactly [ID], and the run shows the thumbnail of [ID]. *)
Theorem watch_link_parsed (i : inputs) (w : world) (P ID R : str) :
  youtube_link_input i = P ++ lit "v=" ++ ID ++ R ->
  contains (lit "v=") (P ++ lit "v") = false ->
  contains (lit "v=") (ID ++ R) = false ->
  contains (lit "&") ID = false ->
  R = [] \/ (exists R', R = lit "&" ++ R') ->
  read_video_id i w = (Ret (Some ID), w, [thumbnail ID]).
Proof.
  intros Hlink HP HIR HID HR.
  assert (Hv : contains (lit "v=") (youtube_link_input i) = true)
    by (rewrite Hlink; apply contains_app_match).
  destruct (extract_video_id_watch (youtube_link_input i) w Hv) as (after & Hn & He).
  rewrite Hlink in Hn.
  rewrite (@split_on_first (lit "v=") P (ID ++ R)) in Hn by (discriminate || exact HP).
  rewrite (split_on_absent _ _ HIR) in Hn. cbn [nth_error] in Hn.
  inversion Hn; subst after; clear Hn.
  assert (Hid : hd [] (split_on (lit "&") (ID ++ R)) = ID).
  { destruct HR as [-> | [R' ->]].
    - rewrite app_nil_r, (split_on_absent _ _ HID). reflexivity.
    - rewrite (@split_on_first (lit "&") ID R'); [reflexivity | discriminate |].
      change (removelast (lit "&")) with (@nil char). rewrite app_nil_r. exact HID. }
  rewrite Hid in He.
  apply read_video_id_recognised; [| rewrite Hv; reflexivity | exact He].
  intros E. rewrite E in Hv. discriminate Hv.
Qed.

Lemma watch_link_parsed_witness :
  let i := sample_inputs (lit "https://www.youtube.com/watch?v=abc123&t=5") None in
  youtube_link_input i
  = lit "https://www.youtube.com/watch?" ++ lit "v=" ++ lit "abc123" ++ lit "&t=5"
  /\ read_video_id i empty_world
     = (Ret (Some (lit "abc123")), empty_world, [thumbnail (lit "abc123")]).
Proof.
  split; [reflexivity|].
  apply (@watch_link_parsed
           (sample_inputs (lit "https://www.youtube.com/watch?v=abc123&t=5") None)
           empty_world (lit "https://www.youtube.com/watch?") (lit "abc123") (lit "&t=5"));
    try reflexivity.
  right. exists (lit "t=5"). reflexivity.
Defined.

(** X3: a short link [P youtu.be/ ID] that holds no [v=], with the mark
    occurring neither before nor inside [ID], yields the whole of what
    follows the mark, a query string included. *)
Theorem short_link_parsed (i : inputs) (w : world) (P ID : str) :
  youtube_link_input i = P ++ lit "youtu.be/" ++ ID ->
  contains (lit "v=") (youtube_link_input i) = false ->
  contains (lit "youtu.be/") (P ++ lit "youtu.be") = false ->
  contains (lit "youtu.be/") ID = false ->
  read_video_id i w = (Ret (Some ID), w, [thumbnail ID]).
Proof.
  intros Hlink Hv HP HID.
  assert (Hy : contains (lit "youtu.be/") (youtube_link_input i) = true)
    by (rewrite Hlink; apply contains_app_match).
  apply read_video_id_recognised.
  - intros E. rewrite E in Hy. discriminate Hy.
  - rewrite Hy. apply orb_true_r.
  - unfold extract_video_id. rewrite Hv, Hlink.
    rewrite (@split_on_first (lit "youtu.be/") P ID) by (discriminate || exact HP).
    rewrite (split_on_absent _ _ HID). reflexivity.
Qed.

Lemma short_link_parsed_witness :
  let i := sample_inputs (lit "https://youtu.be/abc123?t=5") None in
  youtube_link_input i = lit "https://" ++ lit "youtu.be/" ++ lit "abc123?t=5"
  /\ read_video_id i empty_world
     = (Ret (Some (lit "abc123?t=5")), empty_world, [thumbnail (lit "abc123?t=5")]).
Proof.
  split; [reflexivity|].
  apply (@short_link_parsed (sample_inputs (lit "https://youtu.be/abc123?t=5") None)
           empty_world (lit "https://") (lit "abc123?t=5")); reflexivity.
Defined.

(** ** The exported page *)

Lemma draw_lines_nth (lines : list str) (y : Z) (k : nat) (line : str) :
  nth_error lines k = Some line ->
  nth_error (draw_lines lines y) k
  = Some (DrawString 50 (y - 20 * Z.of_nat k) line).
Proof.
  revert y k; induction lines as [|l lines IH]; intros y k H.
  - destruct k; discriminate H.
  - destruct k as [|k].
    + inversion H; subst. cbn [draw_lines nth_error]. do 2 f_equal. lia.
    + cbn [draw_lines nth_error] in *. rewrite (IH _ _ H). do 2 f_equal. lia.
Qed.

Lemma draw_lines_text (lines : list str) (y : Z) :
  map op_text (draw_lines lines y) = lines.
Proof.
  revert y; induction lines as [|l lines IH]; intros y; simpl; [reflexivity|].
  rewrite IH. reflexivity.
Qed.

(** X4: the page that [generate_pdf] draws loses no text: after the
    title [<content_type> Content], its lines, joined by line breaks,
    are the content, one drawing operation per line. *)
Theorem pdf_page_keeps_text (content content_type : str) :
  nth_error (pdf_page content content_type) 1
  = Some (DrawString 100 750 (content_type ++ lit " Content"))
  /\ join newline (body_lines (pdf_page content content_type)) = content
  /\ length (pdf_page content content_type)
     = 3 + length (split_on newline content).
Proof.
  unfold pdf_page, body_lines. split; [reflexivity|]. split.
  - cbn [app skipn]. rewrite draw_lines_text.
    apply (@join_split_on_bounded newline (length content)); [discriminate | lia].
  - cbn [app length]. rewrite <- (draw_lines_text (split_on newline content) 700) at 2.
    rewrite length_map. reflexivity.
Qed.

(** X5: there is no page break: the line of index [k] of the content is
    drawn at x = 50 and y = 700 - 20 k whatever [k], so from the line of
    index 36 on it is drawn below the page, at a negative height. *)
Theorem pdf_line_position (content content_type : str) (k : nat) (line : str) :
  nth_error (split_on newline content) k = Some line ->
  nth_error (pdf_page content content_type) (3 + k)
  = Some (DrawString 50 (700 - 20 * Z.of_nat k) line)
  /\ (36 <= k -> (700 - 20 * Z.of_nat k < 0)%Z).
Proof.
  intros H. split; [| lia].
  unfold pdf_page. cbn [app plus nth_error]. apply draw_lines_nth. exact H.
Qed.

Lemma pdf_line_position_witness :
  nth_error (split_on newline (lit "a" ++ newline ++ lit "b")) 1 = Some (lit "b")
  /\ nth_error (pdf_page (lit "a" ++ newline ++ lit "b") (lit "Notes")) 4
     = Some (DrawString 50 680 (lit "b")).
Proof.
  split; [reflexivity|].
  exact (proj1 (@pdf_line_position (lit "a" ++ newline ++ lit "b") (lit "Notes") 1
                  (lit "b") eq_refl)).
Defined.

Lemma get_attr_present (A : Type) (field : SessionState -> option A)
    (w : world) (v : A) :
  field (session_state w) = Some v -> get_attr field w = (Ret v, w, []).
Proof.
  intros H. unfold get_attr, bind, get_world. cbv beta iota. rewrite H. reflexivity.
Qed.

Lemma generate_pdf_ok (e : env) (content content_type : str) (w : world) :
  canvas_save e pdf_output_path (pdf_page content content_type) = Returns tt ->
  generate_pdf e content content_type w
  = (Ret (Some pdf_output_path),
     with_files (fun fs => (pdf_output_path, pdf_page content content_type) :: fs) w,
     [CallCanvasSave pdf_output_path (pdf_page content content_type)]).
Proof.
  intros H. unfold generate_pdf, bind, emit, update. cbv beta iota zeta.
  unfold pdf_output_path in H. rewrite H. reflexivity.
Qed.

(** X6: when the session holds a generated content and the canvas
    renders it, the download button of the run carries the page drawn
    from that content in this run, whatever file was at the path
    before. *)
Theorem export_offers_current_content (e : env) (i : inputs)
    (content_type g : str) (w : world) :
  generated_content (session_state w) = Some (Some g) ->
  truthy g = true ->
  canvas_save e pdf_output_path (pdf_page g content_type) = Returns tt ->
  In (StDownloadButton (lit "Download PDF") (pdf_page g content_type)
        (lit "generated_content_reportlab.pdf") (lit "application/pdf"))
     (log_of (export_and_translate_step e i content_type w)).
Proof.
  intros Hg Ht Hsave. unfold export_and_translate_step.
  rewrite (@bind_returns _ _ _ _ _ _ _ _ (get_attr_present _ _ Hg)).
  cbv beta iota. rewrite Ht.
  rewrite (@bind_returns _ _ (emit _) _ w w tt [_] eq_refl).
  rewrite (@bind_returns _ _ _ _ _ _ _ _ (generate_pdf_ok e g content_type w Hsave)).
  erewrite (@bind_returns _ _ (open_rb (Some pdf_output_path)));
    [| unfold open_rb, bind, get_world, with_files; cbv beta iota; cbn [files find fst snd];
       change (eqb pdf_output_path pdf_output_path) with true; cbv iota; reflexivity ].
  erewrite (@bind_returns _ _ (emit _)); [| reflexivity].
  unfold log_of. cbn [snd app]. right; right; left. reflexivity.
Qed.

Lemma export_offers_current_content_witness :
  let e := sample_env (Returns []) [] (Returns tt) in
  let w := sample_world (sample_session (Some (lit "text")) None false) in
  generated_content (session_state w) = Some (Some (lit "text"))
  /\ In (StDownloadButton (lit "Download PDF") (pdf_page (lit "text") (lit "Summary"))
           (lit "generated_content_reportlab.pdf") (lit "application/pdf"))
        (log_of (export_and_translate_step e (sample_inputs [] None) (lit "Summary") w)).
Proof.
  split; [reflexivity|].
  apply (@export_offers_current_content
           (sample_env (Returns []) [] (Returns tt)) (sample_inputs [] None)
           (lit "Summary") (lit "text")
           (sample_world (sample_session (Some (lit "text")) None false)));
    reflexivity.
Defined.

(** X7: when the session holds a generated content and rendering
    fails, the step shows the content, prints the failure to the
    standard output and then raises [TypeError] at [open]: the world is
    unchanged and the translator is not called, whichever button
    started the run. *)
Theorem export_failure_aborts_step (e : env) (i : inputs)
    (content_type g msg : str) (w : world) :
  generated_content (session_state w) = Some (Some g) ->
  truthy g = true ->
  canvas_save e pdf_output_path (pdf_page g content_type) = Raises msg ->
  export_and_translate_step e i content_type w
  = (Raise TypeError, w,
     [StMarkdown (content_block content_type (lit "English") g);
      CallCanvasSave pdf_output_path (pdf_page g content_type);
      PyPrint (lit "Error generating PDF: " ++ msg)]).
Proof.
  intros Hg Ht Hsave. unfold export_and_translate_step.
  rewrite (@bind_returns _ _ _ _ _ _ _ _ (get_attr_present _ _ Hg)).
  cbv beta iota. rewrite Ht.
  rewrite (@bind_returns _ _ (emit _) _ w w tt [_] eq_refl).
  rewrite (@bind_returns _ _ _ _ _ _ _ _ (generate_pdf_fails e g content_type w Hsave)).
  rewrite (@bind_raises _ _ (open_rb None) _ w w TypeError [] eq_refl).
  reflexivity.
Qed.

Lemma export_failure_aborts_step_witness :
  let e := sample_env (Returns []) [] (Raises (lit "disk full")) in
  let w := sample_world (sample_session (Some (lit "text")) None false) in
  canvas_save e pdf_output_path (pdf_page (lit "text") (lit "Summary"))
  = Raises (lit "disk full")
  /\ result_of (export_and_translate_step e (sample_inputs [] (Some BtnTranslateContent))
                  (lit "Summary") w)
     = Raise TypeError.
Proof.
  split; [reflexivity|].
  rewrite (@export_failure_aborts_step
             (sample_env (Returns []) [] (Raises (lit "disk full")))
             (sample_inputs [] (Some BtnTranslateContent))
             (lit "Summary") (lit "text") (lit "disk full")
             (sample_world (sample_session (Some (lit "text")) None false))
             eq_refl eq_refl eq_refl).
  reflexivity.
Defined.

(** ** The user store across runs *)

Lemma same_users_refl (w : world) : same_users w w.
Proof. reflexivity. Qed.

Lemma same_users_trans (a b c : world) :
  same_users a b -> same_users b c -> same_users a c.
Proof. unfold same_users; congruence. Qed.

Ltac trivial_side := intros; first [reflexivity | exact Logic.I].

Lemma main_app_same_users (e : env) (i : inputs) :
  keeps same_users any_event (main_app e i).
Proof. unfold_app. keeps_with same_users_refl same_users_trans trivial_side. Qed.

Lemma admin_panel_same_users (i : inputs) :
  keeps same_users any_event (admin_panel i).
Proof. unfold_app. keeps_with same_users_refl same_users_trans trivial_side. Qed.

Lemma login_page_same_users (e : env) (i : inputs) :
  keeps same_users any_event (login_page e i).
Proof. unfold_app. keeps_with same_users_refl same_users_trans trivial_side. Qed.

Lemma admin_login_same_users (e : env) (i : inputs) :
  keeps same_users any_event (admin_login e i).
Proof. unfold_app. keeps_with same_users_refl same_users_trans trivial_side. Qed.

Lemma init_flags_users (w : world) :
  users_collection (init_flags w) = users_collection w.
Proof.
  destruct w as [us cs [[li|] ue [ad|] gc tc pg] fs]; reflexivity.
Qed.

(** A run either leaves the users as they are or appends one user
    whose identifier was not in the store. *)
Lemma app_run_users (e : env) (i : inputs) (w : world) :
  users_collection (world_of (app_run e i w)) = users_collection w
  \/ (find_one (email_input i) (users_collection w) = None
      /\ exists d, u_email d = email_input i
                   /\ users_collection (world_of (app_run e i w))
                      = users_collection w ++ [d]).
Proof.
  rewrite app_run_dispatch. rewrite <- (init_flags_users w).
  destruct (screen_of (session_state (init_flags w))).
  - destruct (option_radio i).
    + left. apply login_page_same_users.
    + destruct (st_button i BtnSignUp) eqn:Hb.
      * destruct (find_one (email_input i) (users_collection (init_flags w)))
          as [u|] eqn:Hf.
        -- left. rewrite (signup_page_exists e i _ Hb Hf). reflexivity.
        -- right. split; [reflexivity|].
           rewrite (signup_page_registers e i _ Hb Hf).
           eexists; split; [|reflexivity]. reflexivity.
      * left. rewrite (signup_page_idle e i _ Hb). reflexivity.
    + left. apply admin_login_same_users.
  - left. apply main_app_same_users.
  - left. apply admin_panel_same_users.
Qed.

Lemma find_none_not_in (email : str) (users : list user_doc) :
  find_one email users = None -> ~ In email (map u_email users).
Proof.
  unfold find_one. induction users as [|u l IH]; simpl; [tauto|].
  destruct (eqb (u_email u) email) eqn:E; [discriminate|].
  intros H [Hu | Hin]; [|exact (IH H Hin)].
  apply eqb_neq in E. congruence.
Qed.

Lemma NoDup_snoc (A : Type) (l : list A) (x : A) :
  NoDup l -> ~ In x l -> NoDup (l ++ [x]).
Proof.
  intros Hl Hx. induction Hl as [|y l Hy Hl IH]; simpl.
  - constructor; [tauto | constructor].
  - constructor.
    + rewrite in_app_iff. simpl. intros [H | [H | []]]; [tauto|].
      subst. apply Hx. left; reflexivity.
    + apply IH. intros H. apply Hx. right; exact H.
Qed.

(** X8: the user store only grows: after any flow the users the flow
    started with are still there, unchanged and in the same order, with
    the users registered meanwhile behind them. *)
Theorem users_never_removed (steps : list (env * inputs)) (w : world) :
  exists added,
    users_collection (fst (app_flow steps w)) = users_collection w ++ added.
Proof.
  revert w. induction steps as [|[e i] rest IH]; intros w; simpl.
  - exists []. symmetry; apply app_nil_r.
  - specialize (IH (world_of (app_run e i w))).
    destruct (app_flow rest (world_of (app_run e i w))) as [w' l']; simpl in *.
    destruct IH as [added IH]. rewrite IH.
    destruct (app_run_users e i w) as [-> | (_ & d & _ & ->)].
    + exists added; reflexivity.
    + exists (d :: added). rewrite <- app_assoc. reflexivity.
Qed.

(** X9: identifiers stay unique: if no two users of the store share an
    identifier, the same holds after any flow, whatever is typed and
    clicked. *)
Theorem unique_emails_preserved (steps : list (env * inputs)) (w : world) :
  NoDup (emails w) -> NoDup (emails (fst (app_flow steps w))).
Proof.
  revert w. induction steps as [|[e i] rest IH]; intros w Hw; simpl; [exact Hw|].
  specialize (IH (world_of (app_run e i w))).
  destruct (app_flow rest (world_of (app_run e i w))) as [w' l']; simpl in *.
  apply IH. unfold emails in *.
  destruct (app_run_users e i w) as [-> | (Hf & d & Hd & ->)]; [exact Hw|].
  rewrite map_app. simpl. apply NoDup_snoc; [exact Hw|].
  rewrite Hd. apply find_none_not_in. exact Hf.
Qed.

Lemma unique_emails_preserved_witness :
  let e := sample_env (Returns []) [] (Returns tt) in
  let steps := [(e, sample_inputs [] (Some BtnSignUp));
                (e, sample_inputs [] (Some BtnSignUp))] in
  NoDup (emails empty_world)
  /\ NoDup (emails (fst (app_flow steps empty_world)))
  /\ emails (fst (app_flow steps empty_world)) = [lit "a@b.com"].
Proof.
  assert (H : NoDup (emails empty_world)) by constructor.
  split; [exact H|]. split; [|reflexivity].
  exact (@unique_emails_preserved
           [(sample_env (Returns []) [] (Returns tt), sample_inputs [] (Some BtnSignUp));
            (sample_env (Returns []) [] (Returns tt), sample_inputs [] (Some BtnSignUp))]
           empty_world H).
Defined.

(** ** Logging in *)

Lemma login_page_idle (e : env) (i : inputs) (w : world) :
  st_button i BtnLogin = false ->
  login_page e i w = (Ret tt, w, [StTitle (lit "Login")]).
Proof.
  intros Hb. unfold login_page. rewrite Hb. reflexivity.
Qed.

Lemma login_page_logs_in (e : env) (i : inputs) (w : world) (u : user_doc) :
  st_button i BtnLogin = true ->
  find_one (email_input i) (users_collection w) = Some u ->
  checkpw e (encode_utf8 (password_input i)) (u_password u) = true ->
  login_page e i w
  = (Ret tt,
     with_session (fun s => set_user_email (Some (email_input i))
                              (set_logged_in true s)) w,
     [StTitle (lit "Login"); login_success]).
Proof.
  intros Hb Hf Hp. unfold login_page. rewrite Hb.
  unfold bind, emit, get_world. cbv beta iota zeta. rewrite Hf, Hp. reflexivity.
Qed.

Lemma st_button_true (i : inputs) (b : button) :
  clicked i = Some b -> st_button i b = true.
Proof.
  intros H. unfold st_button. rewrite H. destruct b; reflexivity.
Qed.

(** X10: the login page logs a user in only with a verified password:
    when it shows the success message, the store holds a user with the
    typed identifier whose stored hash accepts the typed password, and
    the session is logged in under that identifier. *)
Theorem login_requires_verified_password (e : env) (i : inputs) (w : world) :
  In login_success (log_of (login_page e i w)) ->
  exists u,
    In u (users_collection w)
    /\ u_email u = email_input i
    /\ checkpw e (encode_utf8 (password_input i)) (u_password u) = true
    /\ logged_in (session_state (world_of (login_page e i w))) = Some true
    /\ user_email (session_state (world_of (login_page e i w)))
       = Some (Some (email_input i)).
Proof.
  intros H.
  destruct (st_button i BtnLogin) eqn:Hb.
  - pose proof (st_button_clicked i BtnLogin Hb) as Hc.
    destruct (find_one (email_input i) (users_collection w)) as [u|] eqn:Hf.
    + destruct (checkpw e (encode_utf8 (password_input i)) (u_password u)) eqn:Hp.
      * exists u. rewrite (login_page_logs_in e i w Hb Hf Hp).
        unfold find_one in Hf. apply find_some in Hf as [Hin He].
        apply eqb_eq in He. repeat split; assumption.
      * rewrite (login_page_rejects e i w Hc) in H by (rewrite Hf; exact Hp).
        destruct H as [H | [H | []]]; discriminate H.
    + rewrite (login_page_rejects e i w Hc) in H by (rewrite Hf; reflexivity).
      destruct H as [H | [H | []]]; discriminate H.
  - rewrite (login_page_idle e i w Hb) in H.
    destruct H as [H | []]; discriminate H.
Qed.

Lemma login_requires_verified_password_witness :
  let e := sample_env (Returns []) [] (Returns tt) in
  let w := world_of (signup_page e (sample_inputs [] (Some BtnSignUp)) empty_world) in
  let i := login_inputs (lit "a@b.com") (lit "p1") in
  In login_success (log_of (login_page e i w))
  /\ exists u, In u (users_collection w) /\ u_email u = lit "a@b.com".
Proof.
  assert (H : In login_success
                (log_of (login_page (sample_env (Returns []) [] (Returns tt))
                           (login_inputs (lit "a@b.com") (lit "p1"))
                           (world_of (signup_page (sample_env (Returns []) [] (Returns tt))
                                        (sample_inputs [] (Some BtnSignUp)) empty_world)))))
    by (right; left; reflexivity).
  split; [exact H|].
  destruct (@login_requires_verified_password _ _ _ H) as (u & Hin & He & _).
  exists u. split; [exact Hin | exact He].
Defined.

(** X11: registering and then logging in with the same identifier and
    password succeeds, whatever else the store holds, provided the
    password check accepts the hash made at registration: the session
    is then logged in under that identifier. *)
Theorem login_after_signup (e1 e2 : env) (i1 i2 : inputs) (w : world) :
  In registration_success (log_of (signup_page e1 i1 w)) ->
  clicked i2 = Some BtnLogin ->
  email_input i2 = email_input i1 ->
  password_input i2 = password_input i1 ->
  checkpw e2 (encode_utf8 (password_input i1))
    (hashpw e1 (encode_utf8 (password_input i1)) (gensalt e1)) = true ->
  let r := login_page e2 i2 (world_of (signup_page e1 i1 w)) in
  In login_success (log_of r)
  /\ logged_in (session_state (world_of r)) = Some true
  /\ user_email (session_state (world_of r)) = Some (Some (email_input i1)).
Proof.
  intros H Hc He Hpw Hcheck.
  destruct (signup_success_inv e1 i1 w H) as [Hb Hf].
  cbv zeta. remember (world_of (signup_page e1 i1 w)) as w1 eqn:Hw1.
  rewrite (signup_page_registers e1 i1 w Hb Hf) in Hw1.
  unfold world_of in Hw1; cbn [fst snd] in Hw1.
  set (d := {| u_email := email_input i1;
               u_password := hashpw e1 (encode_utf8 (password_input i1)) (gensalt e1) |})
    in Hw1.
  assert (Hu : users_collection w1 = users_collection w ++ [d])
    by (rewrite Hw1; reflexivity).
  clear Hw1. unfold find_one in Hf.
  assert (Hf2 : find_one (email_input i2) (users_collection w1) = Some d).
  { rewrite He, Hu. unfold find_one. rewrite (find_app_none _ _ [d] Hf).
    cbn [find u_email d]. rewrite eqb_refl. reflexivity. }
  assert (Hp2 : checkpw e2 (encode_utf8 (password_input i2)) (u_password d) = true)
    by (rewrite Hpw; exact Hcheck).
  rewrite (login_page_logs_in e2 i2 w1 (st_button_true i2 Hc) Hf2 Hp2).
  rewrite He. repeat split. right; left; reflexivity.
Qed.

Lemma login_after_signup_witness :
  let e := sample_env (Returns []) [] (Returns tt) in
  let i1 := sample_inputs [] (Some BtnSignUp) in
  let i2 := login_inputs (lit "a@b.com") (lit "p1") in
  In registration_success (log_of (signup_page e i1 empty_world))
  /\ logged_in (session_state
                  (world_of (login_page e i2 (world_of (signup_page e i1 empty_world)))))
     = Some true.
Proof.
  assert (H : In registration_success
                (log_of (signup_page (sample_env (Returns []) [] (Returns tt))
                           (sample_inputs [] (Some BtnSignUp)) empty_world)))
    by (right; right; left; reflexivity).
  split; [exact H|].
  exact (proj1 (proj2 (@login_after_signup
                         (sample_env (Returns []) [] (Returns tt))
                         (sample_env (Returns []) [] (Returns tt))
                         (sample_inputs [] (Some BtnSignUp))
                         (login_inputs (lit "a@b.com") (lit "p1"))
                         empty_world H eq_refl eq_refl eq_refl eq_refl))).
Defined.

(** ** The admin login *)

(** X12: the admin login succeeds exactly when the button is clicked
    and both configured values are set and equal to what is typed; it
    then sets the admin flag, and otherwise leaves the world as it is.
    With either value missing from the configuration nobody can log in
    as admin. *)
Theorem admin_login_exactly_configured (e : env) (i : inputs) (w : world) :
  (In admin_login_success (log_of (admin_login e i w))
   <-> clicked i = Some BtnLoginAsAdmin
       /\ ADMIN_EMAIL e = Some (admin_email_input i)
       /\ ADMIN_PASSWORD e = Some (admin_password_input i))
  /\ (In admin_login_success (log_of (admin_login e i w)) ->
      world_of (admin_login e i w)
      = with_session (set_is_admin_logged_in true) w)
  /\ (~ In admin_login_success (log_of (admin_login e i w)) ->
      world_of (admin_login e i w) = w).
Proof.
  unfold admin_login.
  destruct (st_button i BtnLoginAsAdmin) eqn:Hb.
  - pose proof (st_button_clicked i BtnLoginAsAdmin Hb) as Hc.
    destruct (ADMIN_EMAIL e) as [a|]; [destruct (eqb (admin_email_input i) a) eqn:Ea|];
      (destruct (ADMIN_PASSWORD e) as [p|];
       [destruct (eqb (admin_password_input i) p) eqn:Ep|]);
      cbn [andb]; unfold log_of, world_of; cbn;
      try (apply eqb_eq in Ea; subst a); try (apply eqb_eq in Ep; subst p);
      try apply eqb_neq in Ea; try apply eqb_neq in Ep;
      (split; [split|split]);
      try (intros [H | [H | []]]; discriminate H);
      try (intros (_ & H1 & H2); congruence);
      try (intros _; repeat split; (assumption || reflexivity));
      try reflexivity;
      try (intros H; exfalso; apply H; right; left; reflexivity);
      try (intros _; right; left; reflexivity).
  - unfold log_of, world_of; cbn. split; [split|split].
    + intros [H | []]; discriminate H.
    + intros (Hc & _). apply st_button_true in Hc. congruence.
    + intros [H | []]; discriminate H.
    + reflexivity.
Qed.

(** ** Session flags across runs *)

Lemma app_flow_keeps (I : world -> world -> Prop) (P : event -> Prop) :
  (forall w, I w w) ->
  (forall a b c, I a b -> I b c -> I a c) ->
  (forall e i, keeps I P (app_run e i)) ->
  forall steps w,
    I w (fst (app_flow steps w)) /\ Forall P (snd (app_flow steps w)).
Proof.
  intros Hrefl Htrans Hrun steps.
  induction steps as [|[e i] rest IH]; intros w; simpl.
  - split; [apply Hrefl | constructor].
  - destruct (Hrun e i w) as [Hw Hl].
    specialize (IH (world_of (app_run e i w))).
    destruct (app_flow rest (world_of (app_run e i w))) as [w' l']; simpl in *.
    split; [eapply Htrans; [exact Hw | apply IH] | apply Forall_app; tauto].
Qed.

Lemma export_flag_refl (w : world) : export_flag_stays_unset w w.
Proof. intros H; exact H. Qed.

Lemma export_flag_trans (a b c : world) :
  export_flag_stays_unset a b -> export_flag_stays_unset b c ->
  export_flag_stays_unset a c.
Proof. unfold export_flag_stays_unset; auto. Qed.

Lemma app_run_export_flag (e : env) (i : inputs) :
  keeps export_flag_stays_unset any_event (app_run e i).
Proof.
  unfold_app.
  keeps_with export_flag_refl export_flag_trans
    ltac:(first [ exact Logic.I
                | intros; exact Logic.I
                | intros ? ?; cbn in *; first [assumption | discriminate] ]).
Qed.

(** X13: nothing ever sets the export flag: in a session that starts
    without [pdf_generated] or with it false, the flag is not [True]
    after any flow, exports included. *)
Theorem export_flag_never_set (steps : list (env * inputs)) (w : world) :
  pdf_generated (session_state w) <> Some true ->
  pdf_generated (session_state (fst (app_flow steps w))) <> Some true.
Proof.
  exact (proj1 (app_flow_keeps export_flag_refl export_flag_trans
                  app_run_export_flag steps w)).
Qed.

Lemma export_flag_never_set_witness :
  let e := sample_env (Returns (lit "a short summary"))
             [ {| text := lit "hello world" |} ] (Returns tt) in
  let steps := [(e, sample_inputs (lit "https://youtu.be/abc123") (Some BtnGenerateContent));
                (e, sample_inputs (lit "https://youtu.be/abc123") None)] in
  let w := sample_world (sample_session None None false) in
  pdf_generated (session_state w) <> Some true
  /\ pdf_generated (session_state (fst (app_flow steps w))) <> Some true.
Proof.
  assert (H : pdf_generated (session_state (sample_world (sample_session None None false)))
              <> Some true) by discriminate.
  split; [exact H|].
  apply export_flag_never_set. exact H.
Defined.

Lemma same_login_refl (w : world) : same_login w w.
Proof. reflexivity. Qed.

Lemma same_login_trans (a b c : world) :
  same_login a b -> same_login b c -> same_login a c.
Proof. unfold same_login; congruence. Qed.

Lemma main_app_same_login (e : env) (i : inputs) :
  keeps same_login any_event (main_app e i).
Proof. unfold_app. keeps_with same_login_refl same_login_trans trivial_side. Qed.

Lemma init_flags_logged_in (w : world) (b : bool) :
  logged_in (session_state w) = Some b ->
  logged_in (session_state (init_flags w)) = Some b.
Proof.
  destruct w as [us cs [[li|] ue [ad|] gc tc pg] fs]; simpl;
    intros H; try discriminate H; exact H.
Qed.

Lemma app_run_user_session (e : env) (i : inputs) (w : world) :
  logged_in (session_state w) = Some true ->
  app_run e i w = main_app e i (init_flags w)
  /\ logged_in (session_state (world_of (app_run e i w))) = Some true.
Proof.
  intros H. apply init_flags_logged_in in H.
  assert (E : app_run e i w = main_app e i (init_flags w)).
  { rewrite app_run_dispatch. unfold screen_of. rewrite H. reflexivity. }
  split; [exact E|]. rewrite E.
  destruct (main_app_same_login e i (init_flags w)) as [Hs _].
  unfold same_login in Hs. rewrite Hs. exact H.
Qed.

(** X14: there is no way out of the user session: once the session is
    logged in, every later run shows the main application and the
    session is still logged in after any flow. *)
Theorem user_session_persists (steps : list (env * inputs)) (w : world) :
  logged_in (session_state w) = Some true ->
  logged_in (session_state (fst (app_flow steps w))) = Some true
  /\ screen_of (session_state (fst (app_flow steps w))) = UserSession.
Proof.
  intros H.
  assert (Hl : logged_in (session_state (fst (app_flow steps w))) = Some true).
  { revert w H. induction steps as [|[e i] rest IH]; intros w H; simpl; [exact H|].
    specialize (IH (world_of (app_run e i w))
                  (proj2 (app_run_user_session e i w H))).
    destruct (app_flow rest (world_of (app_run e i w))); exact IH. }
  split; [exact Hl|]. unfold screen_of. rewrite Hl. reflexivity.
Qed.

Lemma user_session_persists_witness :
  let e := sample_env (Returns []) [] (Returns tt) in
  let steps := [(e, sample_inputs [] (Some BtnLogoutAdmin));
                (e, sample_inputs [] (Some BtnSignUp))] in
  let w := sample_world (sample_session None None false) in
  logged_in (session_state w) = Some true
  /\ screen_of (session_state (fst (app_flow steps w))) = UserSession.
Proof.
  split; [reflexivity|].
  exact (proj2 (@user_session_persists
                  [(sample_env (Returns []) [] (Returns tt),
                    sample_inputs [] (Some BtnLogoutAdmin));
                   (sample_env (Returns []) [] (Returns tt),
                    sample_inputs [] (Some BtnSignUp))]
                  (sample_world (sample_session None None false)) eq_refl)).
Defined.

(** ** Generation in the main application *)

Lemma generation_step_needs_transcript (e : env) (i : inputs)
    (video_id : option str) (content_type : str) (n : Z) :
  no_transcript e ->
  keeps any_world (fun ev => is_model_call ev = false)
    (generation_step e i video_id content_type n).
Proof.
  intros Hno w. unfold generation_step.
  destruct video_id as [vid|]; [|split; [exact Logic.I | constructor]].
  destruct (truthy vid); [|split; [exact Logic.I | constructor]].
  specialize (Hno vid). split; [exact Logic.I|].
  unfold fetch_transcript, bind, emit, ret, log_of. cbv beta iota.
  destruct (youtube_transcript_api e vid (lit "en")) as [entries| | |msg].
  - rewrite Hno. repeat constructor.
  - repeat constructor.
  - repeat constructor.
  - repeat constructor.
Qed.

(** X15: without a transcript there is no generation: when the
    transcript API fails or delivers an empty text, no run of the main
    application calls the generative model, the generation button
    included. *)
Theorem no_generation_without_transcript (e : env) (i : inputs) (w : world) :
  no_transcript e ->
  existsb is_model_call (log_of (main_app e i w)) = false.
Proof.
  intros Hno. apply no_model_call.
  assert (Hk : keeps any_world (fun ev => is_model_call ev = false) (main_app e i)).
  { unfold main_app.
    eapply keeps_bind; [exact any_world_trans | | intros _].
    { apply keeps_emit; [exact any_world_refl | reflexivity]. }
    eapply keeps_bind; [exact any_world_trans | apply main_app_quiet_prefix | intros video_id].
    do 3 (eapply keeps_bind;
          [ exact any_world_trans
          | apply keeps_init_attr;
            [exact any_world_refl | exact any_world_trans | intros; exact Logic.I]
          | intros _ ]).
    eapply keeps_bind; [exact any_world_trans | | intros _].
    { apply generation_step_needs_transcript. exact Hno. }
    apply export_and_show_no_model_call. }
  apply Hk.
Qed.

Lemma no_generation_without_transcript_witness :
  let e := sample_env (Returns (lit "never asked")) [] (Returns tt) in
  let i := sample_inputs (lit "https://youtu.be/abc123") (Some BtnGenerateContent) in
  no_transcript e
  /\ existsb is_model_call (log_of (main_app e i empty_world)) = false.
Proof.
  assert (H : no_transcript (sample_env (Returns (lit "never asked")) [] (Returns tt)))
    by (intros video_id; reflexivity).
  split; [exact H|].
  apply no_generation_without_transcript. exact H.
Defined.

Lemma st_button_other (i : inputs) (b : button) :
  clicked i <> Some b -> st_button i b = false.
Proof.
  intros H. destruct (st_button i b) eqn:E; [|reflexivity].
  apply st_button_clicked in E. congruence.
Qed.

Lemma generated_content_kept_refl (w : world) : generated_content_kept w w.
Proof. intros g H; exact H. Qed.

Lemma generated_content_kept_trans (a b c : world) :
  generated_content_kept a b -> generated_content_kept b c ->
  generated_content_kept a c.
Proof. unfold generated_content_kept; auto. Qed.

Lemma keeps_init_attr_absent (I : world -> world -> Prop) (P : event -> Prop)
    (A : Type) (field : SessionState -> option A) (f : SessionState -> SessionState) :
  (forall w, I w w) ->
  (forall w, field (session_state w) = None -> I w (with_session f w)) ->
  keeps I P (init_attr field f).
Proof.
  intros Hrefl H w. unfold init_attr, bind, get_world, world_of, log_of.
  cbv beta iota. destruct (field (session_state w)) eqn:E; simpl.
  - split; [apply Hrefl | constructor].
  - split; [apply H; exact E | constructor].
Qed.

(** X16: only the generation button replaces the generated content: a
    run of the main application started by anything else, a
    translation or a failed export included, leaves a generated content
    that the session holds in place. *)
Theorem generated_content_survives (e : env) (i : inputs) (w : world) (g : str) :
  clicked i <> Some BtnGenerateContent ->
  generated_content (session_state w) = Some (Some g) ->
  generated_content (session_state (world_of (main_app e i w))) = Some (Some g).
Proof.
  intros Hc Hg. apply st_button_other in Hc.
  assert (Hk : keeps generated_content_kept any_event (main_app e i)).
  { unfold main_app.
    eapply keeps_bind; [exact generated_content_kept_trans | | intros _].
    { apply keeps_emit; [exact generated_content_kept_refl | exact Logic.I]. }
    eapply keeps_bind; [exact generated_content_kept_trans | | intros video_id].
    { unfold_app.
      keeps_with generated_content_kept_refl generated_content_kept_trans trivial_side. }
    eapply keeps_bind; [exact generated_content_kept_trans | | intros _].
    { apply keeps_init_attr_absent; [exact generated_content_kept_refl|].
      intros w0 E g0 Hg0. rewrite E in Hg0. discriminate Hg0. }
    unfold_app. rewrite Hc.
    keeps_with generated_content_kept_refl generated_content_kept_trans
      ltac:(first [ exact Logic.I
                  | intros; exact Logic.I
                  | intros ? ? ?; cbn in *; assumption ]). }
  exact (proj1 (Hk w) g Hg).
Qed.

Lemma generated_content_survives_witness :
  let e := sample_env (Returns []) [] (Returns tt) in
  let i := sample_inputs [] (Some BtnTranslateContent) in
  let w := sample_world (sample_session (Some (lit "text")) None false) in
  clicked i <> Some BtnGenerateContent
  /\ generated_content (session_state (world_of (main_app e i w)))
     = Some (Some (lit "text"))
  /\ translated_content (session_state (world_of (main_app e i w)))
     = Some (Some (lit "text")).
Proof.
  assert (H : clicked (sample_inputs [] (Some BtnTranslateContent))
              <> Some BtnGenerateContent) by discriminate.
  split; [exact H|]. split; [|reflexivity].
  apply (@generated_content_survives (sample_env (Returns []) [] (Returns tt)) _
           (sample_world (sample_session (Some (lit "text")) None false))
           (lit "text") H).
  reflexivity.
Defined.

Lemma select_prompt_kind (k : content_kind) (n : option Z) :
  exists prompt, select_prompt (kind_label k) n = Some prompt.
Proof. destruct k; eexists; reflexivity. Qed.

Lemma generate_content_down (e : env) (k : content_kind) (transcript : str)
    (n : option Z) (w : world) :
  backend_down e ->
  exists l, generate_content e (kind_label k) transcript n w = (Ret None, w, l).
Proof.
  intros Hdown. destruct (select_prompt_kind k n) as [prompt Hp].
  unfold generate_content. rewrite Hp.
  destruct (Hdown (prompt ++ transcript)) as [msg Hm].
  unfold bind, emit. cbv beta iota. rewrite Hm. eexists; reflexivity.
Qed.

Lemma generation_step_down (e : env) (i : inputs) (video_id : option str)
    (k : content_kind) (n : Z) (w : world) :
  backend_down e ->
  let r := generation_step e i video_id (kind_label k) n w in
  existsb is_model_call (log_of r) = true ->
  generated_content (session_state (world_of r)) = Some None
  /\ translated_content (session_state (world_of r)) = Some None.
Proof.
  intros Hdown. unfold generation_step.
  destruct video_id as [vid|]; [|discriminate].
  destruct (truthy vid); [|discriminate].
  destruct (fetch_transcript_run e vid (lit "en") w) as (t & l & Hf & Hl).
  rewrite (@bind_returns _ _ _ _ _ _ _ _ Hf).
  destruct t as [t|];
    [|unfold log_of; simpl; rewrite app_nil_r, Hl; discriminate].
  destruct (truthy t);
    [|unfold log_of; simpl; rewrite app_nil_r, Hl; discriminate].
  destruct (st_button i BtnGenerateContent) eqn:Hb;
    [|unfold log_of; simpl; rewrite app_nil_r, Hl; discriminate].
  intros _.
  destruct (eqb (kind_label k) (lit "Summary")).
  - destruct (generate_content_down k t (Some n) w Hdown) as (lg & Hg).
    rewrite (@bind_returns _ _ _ _ _ _ _ _ Hg). split; reflexivity.
  - destruct (generate_content_down k t None w Hdown) as (lg & Hg).
    rewrite (@bind_returns _ _ _ _ _ _ _ _ Hg). split; reflexivity.
Qed.

Lemma export_and_show_nothing (e : env) (i : inputs) (content_type : str)
    (w : world) :
  generated_content (session_state w) = Some None ->
  translated_content (session_state w) = Some None ->
  (export_and_translate_step e i content_type ;;
   show_translation_step content_type) w
  = (Ret tt, w, []).
Proof.
  intros Hg Ht.
  assert (He : export_and_translate_step e i content_type w = (Ret tt, w, [])).
  { unfold export_and_translate_step.
    rewrite (@bind_returns _ _ _ _ _ _ _ _ (get_attr_present _ _ Hg)). reflexivity. }
  rewrite (@bind_returns _ _ _ _ _ _ _ _ He).
  unfold show_translation_step.
  rewrite (@bind_returns _ _ _ _ _ _ _ _ (get_attr_present _ _ Ht)). reflexivity.
Qed.

Lemma after_quiet_prefix (A : Type) (Q : world -> Prop) (m : M A)
    (k : A -> M unit) (w : world) :
  keeps any_world (fun ev => is_model_call ev = false) m ->
  (forall a w1, existsb is_model_call (log_of (k a w1)) = true ->
                Q (world_of (k a w1))) ->
  existsb is_model_call (log_of (bind m k w)) = true ->
  Q (world_of (bind m k w)).
Proof.
  intros Hm Hk. destruct (Hm w) as [_ Hl].
  apply (@bind_cases _ _ m k w
           (fun x => existsb is_model_call (log_of x) = true -> Q (world_of x)));
    intros r w1 l1 E; rewrite E in Hl;
    unfold log_of in Hl; simpl in Hl; apply no_model_call in Hl.
  - intros H. unfold log_of in H; simpl in H.
    rewrite existsb_app, Hl in H. simpl in H.
    apply (Hk r w1 H).
  - intros H. unfold log_of in H; simpl in H. congruence.
Qed.

(** X17: a failed generation discards what the session held: when the
    generative backend fails, a run of the main application that
    reaches it ends with no generated and no translated content,
    whatever was generated before. *)
Theorem failed_generation_discards_content (e : env) (i : inputs) (w : world) :
  backend_down e ->
  existsb is_model_call (log_of (main_app e i w)) = true ->
  generated_content (session_state (world_of (main_app e i w))) = Some None
  /\ translated_content (session_state (world_of (main_app e i w))) = Some None.
Proof.
  intros Hdown.
  set (Q := fun x : world =>
              generated_content (session_state x) = Some None
              /\ translated_content (session_state x) = Some None).
  change (existsb is_model_call (log_of (main_app e i w)) = true ->
          Q (world_of (main_app e i w))).
  unfold main_app.
  apply (@after_quiet_prefix _ Q).
  { apply keeps_emit; [exact any_world_refl | reflexivity]. }
  intros _ w1. apply (@after_quiet_prefix _ Q).
  { apply main_app_quiet_prefix. }
  intros video_id w2.
  apply (@after_quiet_prefix _ Q);
    [ apply keeps_init_attr;
      [exact any_world_refl | exact any_world_trans | intros; exact Logic.I]
    | intros _ wa ].
  apply (@after_quiet_prefix _ Q);
    [ apply keeps_init_attr;
      [exact any_world_refl | exact any_world_trans | intros; exact Logic.I]
    | intros _ wb ].
  apply (@after_quiet_prefix _ Q);
    [ apply keeps_init_attr;
      [exact any_world_refl | exact any_world_trans | intros; exact Logic.I]
    | intros _ w0 ].
  pose proof (@generation_step_down e i video_id (content_type_radio i)
                (word_count_slider i) w0 Hdown) as Hgen.
  cbv zeta in Hgen.
  apply (@bind_cases _ _ _ _ w0
           (fun x => existsb is_model_call (log_of x) = true -> Q (world_of x)));
    intros r w3 l3 E; rewrite E in Hgen;
    unfold log_of, world_of in Hgen; simpl in Hgen.
  - intros H. unfold log_of in H; simpl in H. rewrite existsb_app in H.
    destruct (existsb is_model_call l3).
    + destruct (Hgen eq_refl) as (Hg & Ht).
      rewrite (export_and_show_nothing e i _ w3 Hg Ht).
      split; assumption.
    + destruct (export_and_show_no_model_call e i
                  (kind_label (content_type_radio i)) w3) as [_ Hl].
      apply no_model_call in Hl. simpl in H. unfold log_of in Hl. congruence.
  - intros H. unfold log_of in H; simpl in H. exact (Hgen H).
Qed.

Lemma failed_generation_discards_content_witness :
  let e := sample_env (Raises (lit "quota exceeded"))
             [ {| text := lit "hello world this is a test" |} ] (Returns tt) in
  let i := sample_inputs (lit "https://youtu.be/abc123") (Some BtnGenerateContent) in
  let w := sample_world (sample_session (Some (lit "old")) (Some (lit "alt")) false) in
  backend_down e
  /\ existsb is_model_call (log_of (main_app e i w)) = true
  /\ generated_content (session_state (world_of (main_app e i w))) = Some None.
Proof.
  assert (H : backend_down (sample_env (Raises (lit "quota exceeded"))
                              [ {| text := lit "hello world this is a test" |} ]
                              (Returns tt)))
    by (intros prompt; eexists; reflexivity).
  split; [exact H|]. split; [vm_compute; reflexivity|].
  apply (@failed_generation_discards_content _ _ _ H). vm_compute; reflexivity.
Defined.

(** X18: the clamp touches a Summary only: for Notes and Flashcards,
    and for a Summary without a word count or with the count 0, the
    text of the backend is returned as it is. *)
Theorem generate_content_verbatim (e : env) (content_type transcript : str)
    (n : option Z) (w : world) (prompt content : str) :
  select_prompt content_type n = Some prompt ->
  generative_model e (prompt ++ transcript) = Returns content ->
  content_type <> lit "Summary" \/ n = None \/ n = Some 0%Z ->
  generate_content e content_type transcript n w
  = (Ret (Some content), w, [CallGenerativeModel (prompt ++ transcript)]).
Proof.
  intros Hsel Hreply Hcase.
  rewrite (@generate_content_returns e content_type transcript n w prompt content
             Hsel Hreply).
  assert (Hclamp : clamp_summary content_type n content = content).
  { unfold clamp_summary. destruct Hcase as [Hct | [-> | ->]].
    - apply eqb_neq in Hct. rewrite Hct. destruct n; reflexivity.
    - reflexivity.
    - cbn [word_count_truthy Z.eqb negb]. rewrite andb_false_r. reflexivity. }
  rewrite Hclamp. reflexivity.
Qed.

Lemma generate_content_verbatim_witness :
  let e := sample_env (Returns (lit "- one two three four")) [] (Returns tt) in
  select_prompt (lit "Notes") (Some 2%Z) = Some notes_prompt
  /\ generate_content e (lit "Notes") (lit "hello") (Some 2%Z) empty_world
     = (Ret (Some (lit "- one two three four")), empty_world,
        [CallGenerativeModel (notes_prompt ++ lit "hello")]).
Proof.
  split; [reflexivity|].
  apply (@generate_content_verbatim
           (sample_env (Returns (lit "- one two three four")) [] (Returns tt))
           (lit "Notes") (lit "hello") (Some 2%Z) empty_world notes_prompt
           (lit "- one two three four") eq_refl eq_refl).
  left. discriminate.
Defined.

(** ** The admin panel *)

Lemma write_users_run (users : list user_doc) (w : world) :
  write_users users w = (Ret tt, w, map user_line (map u_email users)).
Proof.
  induction users as [|u l IH]; [reflexivity|].
  cbn [write_users map].
  rewrite (@bind_returns _ _ (emit _) _ w w tt [_] eq_refl).
  rewrite IH. reflexivity.
Qed.

Lemma write_contents_run (contents : list content_doc) (w : world) :
  write_contents contents w
  = (Ret tt, w, map content_line (map content_projection contents)).
Proof.
  induction contents as [|c l IH]; [reflexivity|].
  cbn [write_contents map].
  rewrite (@bind_returns _ _ (emit _) _ w w tt [_] eq_refl).
  rewrite IH. reflexivity.
Qed.

Lemma admin_panel_listings (w : world) :
  (emit (StSubheader (lit "User Management")) ;;
   w0 <- get_world ;;
   (match users_collection w0 with
    | _ :: _ =>
        emit (StWrite (lit "**Registered Users:**")) ;;
        write_users (users_collection w0)
    | [] => emit (StInfo (lit "No users found."))
    end) ;;
   emit (StSubheader (lit "Generated Content Management")) ;;
   match content_collection w0 with
   | _ :: _ => write_contents (content_collection w0)
   | [] => emit (StInfo (lit "No content generated yet."))
   end) w
  = (Ret tt, w,
     [StSubheader (lit "User Management")]
     ++ users_listing (emails w)
     ++ [StSubheader (lit "Generated Content Management")]
     ++ contents_listing (map content_projection (content_collection w))).
Proof.
  rewrite (@bind_returns _ _ (emit _) _ w w tt [_] eq_refl).
  rewrite (@bind_returns _ _ get_world _ w w w [] eq_refl).
  assert (Hu : (match users_collection w with
                | _ :: _ =>
                    emit (StWrite (lit "**Registered Users:**")) ;;
                    write_users (users_collection w)
                | [] => emit (StInfo (lit "No users found."))
                end) w
               = (Ret tt, w, users_listing (emails w))).
  { unfold emails. destruct (users_collection w) as [|u l] eqn:E; [reflexivity|].
    rewrite (@bind_returns _ _ (emit _) _ w w tt [_] eq_refl).
    rewrite write_users_run. reflexivity. }
  rewrite (@bind_returns _ _ _ _ _ _ _ _ Hu).
  rewrite (@bind_returns _ _ (emit _) _ w w tt [_] eq_refl).
  assert (Hc : (match content_collection w with
                | _ :: _ => write_contents (content_collection w)
                | [] => emit (StInfo (lit "No content generated yet."))
                end) w
               = (Ret tt, w,
                  contents_listing (map content_projection (content_collection w)))).
  { destruct (content_collection w) as [|c l] eqn:E; [reflexivity|].
    rewrite write_contents_run. reflexivity. }
  rewrite Hc. reflexivity.
Qed.

(** One run of the admin panel, in full. *)
Lemma admin_panel_run (i : inputs) (w : world) :
  admin_panel i w
  = (Ret tt,
     (if st_button i BtnLogoutAdmin
      then with_session (set_is_admin_logged_in false) w else w),
     [StTitle (lit "Admin Panel"); StSidebarSubheader (lit "Admin Actions")]
     ++ (if st_button i BtnLogoutAdmin
         then [StSuccess (lit "Admin has been logged out.")] else [])
     ++ [StSubheader (lit "User Management")]
     ++ users_listing (emails w)
     ++ [StSubheader (lit "Generated Content Management")]
     ++ contents_listing (map content_projection (content_collection w))).
Proof.
  unfold admin_panel.
  rewrite (@bind_returns _ _ (emit _) _ w w tt [_] eq_refl).
  rewrite (@bind_returns _ _ (emit _) _ w w tt [_] eq_refl).
  destruct (st_button i BtnLogoutAdmin).
  - erewrite (@bind_returns _ _ _ _ w
                (with_session (set_is_admin_logged_in false) w) tt
                [StSuccess (lit "Admin has been logged out.")]); [|reflexivity].
    rewrite admin_panel_listings. reflexivity.
  - rewrite (@bind_returns _ _ (ret tt) _ w w tt [] eq_refl).
    rewrite admin_panel_listings. reflexivity.
Qed.

(** X19: the admin panel shows projections only: what a run of it shows
    and returns is determined by the button, by the identifiers of the
    users and by the user, type and time of the content records, so
    password hashes, content bodies, video identifiers and languages
    never reach the page. *)
Theorem admin_panel_shows_projections (i : inputs) (w1 w2 : world) :
  emails w1 = emails w2 ->
  map content_projection (content_collection w1)
  = map content_projection (content_collection w2) ->
  log_of (admin_panel i w1) = log_of (admin_panel i w2)
  /\ result_of (admin_panel i w1) = result_of (admin_panel i w2).
Proof.
  intros He Hc. rewrite !admin_panel_run. unfold log_of, result_of; cbn [fst snd].
  rewrite He, Hc. split; reflexivity.
Qed.

Lemma admin_panel_shows_projections_witness :
  let w1 := admin_world [ {| u_email := lit "a@b.com"; u_password := [1%N] |} ]
              [sample_content (lit "first body")] in
  let w2 := admin_world [ {| u_email := lit "a@b.com"; u_password := [2%N; 3%N] |} ]
              [sample_content (lit "second body")] in
  emails w1 = emails w2
  /\ log_of (admin_panel (sample_inputs [] None) w1)
     = log_of (admin_panel (sample_inputs [] None) w2).
Proof.
  split; [reflexivity|].
  exact (proj1 (@admin_panel_shows_projections (sample_inputs [] None)
                  (admin_world [ {| u_email := lit "a@b.com"; u_password := [1%N] |} ]
                     [sample_content (lit "first body")])
                  (admin_world [ {| u_email := lit "a@b.com"; u_password := [2%N; 3%N] |} ]
                     [sample_content (lit "second body")])
                  eq_refl eq_refl)).
Defined.

Lemma init_flags_screen (w : world) :
  screen_of (session_state (init_flags w)) = screen_of (session_state w)
  /\ is_admin_logged_in (session_state (init_flags w))
     = Some match is_admin_logged_in (session_state w) with
            | Some b => b
            | None => false
            end
  /\ logged_in (session_state (init_flags w))
     = Some match logged_in (session_state w) with
            | Some b => b
            | None => false
            end.
Proof.
  destruct w as [us cs [[[|]|] ue [[|]|] gc tc pg] fs]; repeat split.
Qed.



(** ** Translation *)

Lemma translate_content_run (e : env) (content target : str) (w : world) :
  exists l,
    translate_content e content target w
    = (Ret (translation_result (google_translator e target content)), w,
       CallTranslator target content :: l).
Proof.
  unfold translate_content, bind, emit. cbv beta iota.
  destruct (google_translator e target content); eexists; reflexivity.
Qed.

(** X21: a translation works on the generated content that the session
    holds, with the name of the selected language as target: when the
    export of that content goes through and the translation button is
    clicked, the translator is called on exactly that content, and the
    session then holds its answer, or nothing if it failed. *)
Theorem translation_uses_current_content (e : env) (i : inputs)
    (content_type g : str) (w : world) :
  generated_content (session_state w) = Some (Some g) ->
  truthy g = true ->
  canvas_save e pdf_output_path (pdf_page g content_type) = Returns tt ->
  clicked i = Some BtnTranslateContent ->
  let target := language_label (translation_language_select i) in
  let r := export_and_translate_step e i content_type w in
  In (CallTranslator target g) (log_of r)
  /\ translated_content (session_state (world_of r))
     = Some (translation_result (google_translator e target g))
  /\ generated_content (session_state (world_of r)) = Some (Some g).
Proof.
  intros Hg Ht Hsave Hc. cbv zeta. unfold export_and_translate_step.
  rewrite (@bind_returns _ _ _ _ _ _ _ _ (get_attr_present _ _ Hg)).
  cbv beta iota. rewrite Ht.
  rewrite (@bind_returns _ _ (emit _) _ w w tt [_] eq_refl).
  rewrite (@bind_returns _ _ _ _ _ _ _ _ (generate_pdf_ok e g content_type w Hsave)).
  erewrite (@bind_returns _ _ (open_rb (Some pdf_output_path)));
    [| unfold open_rb, bind, get_world, with_files; cbv beta iota; cbn [files find fst snd];
       change (eqb pdf_output_path pdf_output_path) with true; cbv iota; reflexivity ].
  erewrite (@bind_returns _ _ (emit _)); [| reflexivity].
  rewrite (st_button_true i Hc).
  match goal with
  | |- context [bind (translate_content e g ?t) _ ?w0] =>
      destruct (translate_content_run e g t w0) as [l Htr]
  end.
  rewrite (@bind_returns _ _ _ _ _ _ _ _ Htr).
  unfold log_of, world_of; cbn [fst snd app].
  split; [|split].
  - right; right; right; left; reflexivity.
  - reflexivity.
  - cbn. exact Hg.
Qed.

Lemma translation_uses_current_content_witness :
  let e := sample_env (Returns []) [] (Returns tt) in
  let i := sample_inputs [] (Some BtnTranslateContent) in
  let w := sample_world (sample_session (Some (lit "text")) None false) in
  generated_content (session_state w) = Some (Some (lit "text"))
  /\ In (CallTranslator (lit "Hindi") (lit "text"))
        (log_of (export_and_translate_step e i (lit "Summary") w)).
Proof.
  split; [reflexivity|].
  exact (proj1 (@translation_uses_current_content
                  (sample_env (Returns []) [] (Returns tt))
                  (sample_inputs [] (Some BtnTranslateContent))
                  (lit "Summary") (lit "text")
                  (sample_world (sample_session (Some (lit "text")) None false))
                  eq_refl eq_refl eq_refl eq_refl)).
Defined.

(** ** From the link to the stored content *)

Lemma same_world_refl (w : world) : same_world w w.
Proof. reflexivity. Qed.

Lemma same_world_trans (a b c : world) :
  same_world a b -> same_world b c -> same_world a c.
Proof. unfold same_world; congruence. Qed.

Lemma read_video_id_same_world (i : inputs) :
  keeps same_world any_event (read_video_id i).
Proof. unfold_app. keeps_with same_world_refl same_world_trans trivial_side. Qed.

Lemma init_attr_run (A : Type) (field : SessionState -> option A)
    (f : SessionState -> SessionState) (w : world) :
  exists w', init_attr field f w = (Ret tt, w', []).
Proof.
  unfold init_attr, bind, get_world. cbv beta iota.
  destruct (field (session_state w)); eexists; reflexivity.
Qed.

Lemma export_and_show_keep_generated (e : env) (i : inputs) (content_type : str) :
  keeps generated_content_kept any_event
    (export_and_translate_step e i content_type ;;
     show_translation_step content_type).
Proof.
  unfold_app.
  keeps_with generated_content_kept_refl generated_content_kept_trans
    ltac:(first [ exact Logic.I
                | intros; exact Logic.I
                | intros ? ? ?; cbn in *; assumption ]).
Qed.

Lemma generation_step_stores (e : env) (i : inputs) (w : world)
    (video_id : str) (segments : list segment) (prompt content : str) :
  truthy video_id = true ->
  youtube_transcript_api e video_id (lit "en") = Entries segments ->
  truthy (join (lit " ") (map text segments)) = true ->
  clicked i = Some BtnGenerateContent ->
  select_prompt (kind_label (content_type_radio i)) (requested_word_count i)
  = Some prompt ->
  generative_model e (prompt ++ join (lit " ") (map text segments))
  = Returns content ->
  exists w1,
    generation_step e i (Some video_id) (kind_label (content_type_radio i))
      (word_count_slider i) w
    = (Ret tt, w1,
       [CallTranscriptApi video_id (lit "en");
        CallGenerativeModel (prompt ++ join (lit " ") (map text segments))])
    /\ generated_content (session_state w1)
       = Some (Some (clamp_summary (kind_label (content_type_radio i))
                       (requested_word_count i) content)).
Proof.
  intros Hv Hapi Ht Hc Hsel Hreply. unfold generation_step. rewrite Hv.
  assert (Hf : fetch_transcript e video_id (lit "en") w
               = (Ret (Some (join (lit " ") (map text segments))), w,
                  [CallTranscriptApi video_id (lit "en")])).
  { unfold fetch_transcript, bind, emit. cbv beta iota. rewrite Hapi. reflexivity. }
  rewrite (@bind_returns _ _ _ _ _ _ _ _ Hf). cbv beta iota.
  rewrite Ht, (st_button_true i Hc).
  assert (Hg : (if eqb (kind_label (content_type_radio i)) (lit "Summary")
                then generate_content e (kind_label (content_type_radio i))
                       (join (lit " ") (map text segments))
                       (Some (word_count_slider i))
                else generate_content e (kind_label (content_type_radio i))
                       (join (lit " ") (map text segments)) None) w
               = (Ret (Some (clamp_summary (kind_label (content_type_radio i))
                               (requested_word_count i) content)), w,
                  [CallGenerativeModel
                     (prompt ++ join (lit " ") (map text segments))])).
  { unfold requested_word_count in *.
    destruct (content_type_radio i); cbn [kind_label] in *;
      [ change (eqb (lit "Summary") (lit "Summary")) with true
      | change (eqb (lit "Notes") (lit "Summary")) with false
      | change (eqb (lit "Flashcards") (lit "Summary")) with false ];
      cbv iota; apply generate_content_returns; assumption. }
  rewrite (@bind_returns _ _ _ _ _ _ _ _ Hg).
  eexists. split; reflexivity.
Qed.

(** X22: from the link to the session: when the link yields an
    identifier, the transcript API delivers a non-empty text for it and
    the generation button is clicked, the model is asked with the
    prompt of the selected kind followed by the joined transcript, and
    the session then holds its answer, clamped for a Summary to the
    count of the slider, whether or not the export that follows goes
    through. *)
Theorem generation_stores_answer (e : env) (i : inputs) (w : world)
    (video_id : str) (segments : list segment) (prompt content : str) :
  result_of (read_video_id i w) = Ret (Some video_id) ->
  truthy video_id = true ->
  youtube_transcript_api e video_id (lit "en") = Entries segments ->
  truthy (join (lit " ") (map text segments)) = true ->
  clicked i = Some BtnGenerateContent ->
  select_prompt (kind_label (content_type_radio i)) (requested_word_count i)
  = Some prompt ->
  generative_model e (prompt ++ join (lit " ") (map text segments))
  = Returns content ->
  In (CallGenerativeModel (prompt ++ join (lit " ") (map text segments)))
     (log_of (main_app e i w))
  /\ generated_content (session_state (world_of (main_app e i w)))
     = Some (Some (clamp_summary (kind_label (content_type_radio i))
                     (requested_word_count i) content)).
Proof.
  intros Hread Hv Hapi Ht Hc Hsel Hreply. unfold main_app.
  rewrite (@bind_returns _ _ (emit _) _ w w tt [_] eq_refl).
  assert (Hr : exists l0, read_video_id i w = (Ret (Some video_id), w, l0)).
  { pose proof (proj1 (read_video_id_same_world i w)) as Hw.
    unfold same_world, world_of, result_of in *.
    destruct (read_video_id i w) as [[r wr] lr]. simpl in *.
    subst. eexists; reflexivity. }
  destruct Hr as [l0 Hr]. rewrite (@bind_returns _ _ _ _ _ _ _ _ Hr).
  destruct (init_attr_run generated_content (set_generated_content None) w)
    as [wa Ha].
  rewrite (@bind_returns _ _ _ _ _ _ _ _ Ha).
  destruct (init_attr_run translated_content (set_translated_content None) wa)
    as [wb Hb].
  rewrite (@bind_returns _ _ _ _ _ _ _ _ Hb).
  destruct (init_attr_run pdf_generated (set_pdf_generated false) wb)
    as [wc Hcc].
  rewrite (@bind_returns _ _ _ _ _ _ _ _ Hcc).
  destruct (@generation_step_stores e i wc video_id segments prompt content
              Hv Hapi Ht Hc Hsel Hreply) as (w1 & Hgen & Hstored).
  rewrite (@bind_returns _ _ _ _ _ _ _ _ Hgen).
  destruct (export_and_show_keep_generated e i
              (kind_label (content_type_radio i)) w1) as [Hkeep _].
  unfold log_of, world_of in *. cbn [fst snd]. split.
  - rewrite !in_app_iff. cbn [In]. tauto.
  - apply Hkeep. exact Hstored.
Qed.

Lemma generation_stores_answer_witness :
  let e := sample_env (Returns (lit "one two three four five"))
             [ {| text := lit "hello world" |}; {| text := lit "this is a test" |} ]
             (Raises (lit "disk full")) in
  let i := sample_inputs (lit "https://youtu.be/abc123") (Some BtnGenerateContent) in
  result_of (read_video_id i empty_world) = Ret (Some (lit "abc123"))
  /\ generated_content (session_state (world_of (main_app e i empty_world)))
     = Some (Some (lit "one two three four five")).
Proof.
  split; [reflexivity|].
  exact (proj2 (@generation_stores_answer
                  (sample_env (Returns (lit "one two three four five"))
                     [ {| text := lit "hello world" |}; {| text := lit "this is a test" |} ]
                     (Raises (lit "disk full")))
                  (sample_inputs (lit "https://youtu.be/abc123") (Some BtnGenerateContent))
                  empty_world (lit "abc123")
                  [ {| text := lit "hello world" |}; {| text := lit "this is a test" |} ]
                  (summary_prompt (Some 50%Z)) (lit "one two three four five")
                  eq_refl eq_refl eq_refl eq_refl eq_refl eq_refl eq_refl)).
Defined.

(** ** After a registration: the rerun *)

Lemma registration_success_absent (l : list event) :
  Forall (fun ev => is_registration_success ev = false) l ->
  ~ In registration_success l.
Proof.
  intros Hl Hin. rewrite Forall_forall in Hl. specialize (Hl _ Hin).
  discriminate Hl.
Qed.

Lemma main_app_no_registration (e : env) (i : inputs) :
  keeps any_world (fun ev => is_registration_success ev = false) (main_app e i).
Proof. unfold_app. keeps_with any_world_refl any_world_trans trivial_side. Qed.

Lemma admin_panel_no_registration (i : inputs) :
  keeps any_world (fun ev => is_registration_success ev = false) (admin_panel i).
Proof. unfold_app. keeps_with any_world_refl any_world_trans trivial_side. Qed.

Lemma login_page_no_registration (e : env) (i : inputs) :
  keeps any_world (fun ev => is_registration_success ev = false) (login_page e i).
Proof. unfold_app. keeps_with any_world_refl any_world_trans trivial_side. Qed.

Lemma admin_login_no_registration (e : env) (i : inputs) :
  keeps any_world (fun ev => is_registration_success ev = false) (admin_login e i).
Proof. unfold_app. keeps_with any_world_refl any_world_trans trivial_side. Qed.

(** Only the sign-up page, reached from the unauthenticated screen,
    shows the registration message. *)
Lemma app_run_registration_inv (e : env) (i : inputs) (w : world) :
  In registration_success (log_of (app_run e i w)) ->
  screen_of (session_state (init_flags w)) = Unauthenticated
  /\ option_radio i = OptSignUp
  /\ app_run e i w = signup_page e i (init_flags w).
Proof.
  rewrite app_run_dispatch.
  destruct (screen_of (session_state (init_flags w))).
  - destruct (option_radio i); intros H.
    + exfalso. exact (registration_success_absent
                        (proj2 (login_page_no_registration e i (init_flags w))) H).
    + repeat split.
    + exfalso. exact (registration_success_absent
                        (proj2 (admin_login_no_registration e i (init_flags w))) H).
  - intros H. exfalso.
    exact (registration_success_absent
             (proj2 (main_app_no_registration e i (init_flags w))) H).
  - intros H. exfalso.
    exact (registration_success_absent
             (proj2 (admin_panel_no_registration i (init_flags w))) H).
Qed.

Lemma init_flags_present (w : world) (a b : bool) :
  logged_in (session_state w) = Some a ->
  is_admin_logged_in (session_state w) = Some b ->
  init_flags w = w.
Proof.
  destruct w as [us cs [[li|] ue [ad|] gc tc pg] fs]; simpl;
    intros H1 H2; try discriminate H1; try discriminate H2; reflexivity.
Qed.

(** C9, on the code: a run that registers a user ends with the
    logged-in flag false and the user identifier cleared and leaves by
    [st.rerun()], so there is no automatic login; but the rerun, which
    keeps the sidebar radio on Sign Up, shows the sign-up page again
    and nothing else, not the login page that the comments of lines
    146 and 150 announce. *)
Theorem signup_rerun_shows_sign_up (e e' : env) (i : inputs) (w : world) :
  In registration_success (log_of (app_run e i w)) ->
  let r := app_run e i w in
  result_of r = Raise RerunException
  /\ logged_in (session_state (world_of r)) = Some false
  /\ user_email (session_state (world_of r)) = Some None
  /\ option_radio (rerun_inputs i) = OptSignUp
  /\ app_run e' (rerun_inputs i) (world_of r)
     = (Ret tt, world_of r, [StTitle (lit "Sign Up")]).
Proof.
  intros H. destruct (app_run_registration_inv e i w H) as (Hscreen & Hopt & Erun).
  cbv zeta. rewrite Erun in *.
  destruct (signup_success_inv e i (init_flags w) H) as [Hb Hf].
  rewrite (signup_page_registers e i (init_flags w) Hb Hf).
  unfold world_of, result_of; cbn [fst snd].
  split; [reflexivity|]. split; [reflexivity|]. split; [reflexivity|].
  split; [exact Hopt|].
  set (w1 := {| users_collection := _; content_collection := _;
                session_state := _; files := _ |}).
  destruct (init_flags_screen w) as (_ & Had & Hli).
  assert (Had1 : is_admin_logged_in (session_state w1) = Some false).
  { unfold w1; cbn. unfold screen_of in Hscreen. rewrite Had in *.
    destruct (logged_in (session_state (init_flags w))) as [[|]|];
      try discriminate Hscreen;
      destruct (is_admin_logged_in (session_state w)) as [[|]|];
      try discriminate Hscreen; reflexivity. }
  assert (Hli1 : logged_in (session_state w1) = Some false) by reflexivity.
  rewrite app_run_dispatch.
  rewrite (init_flags_present w1 Hli1 Had1).
  unfold screen_of. rewrite Hli1, Had1.
  change (option_radio (rerun_inputs i)) with (option_radio i). rewrite Hopt.
  apply signup_page_idle. reflexivity.
Qed.

Lemma signup_rerun_shows_sign_up_witness :
  let e := sample_env (Returns []) [] (Returns tt) in
  let i := sample_inputs [] (Some BtnSignUp) in
  let r := app_run e i empty_world in
  In registration_success (log_of r)
  /\ log_of r = [StTitle (lit "Sign Up");
                 InsertUser {| u_email := lit "a@b.com";
                               u_password := 7%N :: encode_utf8 (lit "p1") |};
                 registration_success]
  /\ log_of (app_run e (rerun_inputs i) (world_of r)) = [StTitle (lit "Sign Up")].
Proof.
  assert (H : In registration_success
                (log_of (app_run (sample_env (Returns []) [] (Returns tt))
                           (sample_inputs [] (Some BtnSignUp)) empty_world)))
    by (right; right; left; reflexivity).
  split; [exact H|]. split; [reflexivity|].
  destruct (@signup_rerun_shows_sign_up
              (sample_env (Returns []) [] (Returns tt))
              (sample_env (Returns []) [] (Returns tt))
              (sample_inputs [] (Some BtnSignUp)) empty_world H)
    as (_ & _ & _ & _ & Hrerun).
  rewrite Hrerun. reflexivity.
Defined.
